(** * portfolio-risk-var: VaR / CVaR engine and backtester

    A shallow embedding of [src/risk_metrics.py], [src/backtesting.py] and
    [src/portfolio.py], with the in-sample backtest wired up in [app.py].

    Numbers.  The Python code computes with IEEE doubles.  Here a finite
    double is a rational ([Q]) and the four field operations are exact; the
    one non-finite value the code can produce from finite data (the result of
    averaging nothing, of a standard deviation with too few observations, or
    of a division by zero) is the constructor [NaN] of [val].  Rounding is
    not modelled.

    Libraries.  [numpy.percentile], the pandas reductions [mean] and [std],
    boolean-mask selection and [numpy.isclose] are written out after their
    documented behaviour.  The transcendental functions ([sqrt], [log],
    [scipy.stats.norm.ppf], [norm.pdf], [chi2.cdf]) are the fields of the
    class [MathLib]; the ambient generator behind [numpy.random.normal] is
    the class [Rng], whose state is threaded through every call that draws
    from it.

    Inputs.  A return series is a pandas Series of finite values, as every
    caller in the repository passes one: [std] is the sample standard
    deviation ([ddof = 1]).  A window size and a number of simulations are
    natural numbers. *)

From Stdlib Require Import String.
From Stdlib Require Import QArith Qround Qabs ZArith List Bool Lia Lra Lqa.
From Stdlib Require Import Permutation Sorted.
Import ListNotations.

Open Scope Q_scope.

(** ** Values, exceptions, results *)

Inductive val : Type :=
| Num (q : Q)
| NaN.

Inductive exn : Type :=
| ValueError
| IndexError
| AssertionError
| UnboundLocalError.

Inductive res (A : Type) : Type :=
| Ok (a : A)
| Raise (e : exn).
Arguments Ok {A} a.
Arguments Raise {A} e.

Definition res_bind {A B} (r : res A) (k : A -> res B) : res B :=
  match r with
  | Ok a => k a
  | Raise e => Raise e
  end.

(** Equality of values up to the representation of a rational. *)
Definition veq (a b : val) : Prop :=
  match a, b with
  | Num x, Num y => x == y
  | NaN, NaN => True
  | _, _ => False
  end.

Definition vopp (a : val) : val :=
  match a with Num x => Num (- x) | NaN => NaN end.

Definition vlift2 (f : Q -> Q -> Q) (a b : val) : val :=
  match a, b with
  | Num x, Num y => Num (f x y)
  | _, _ => NaN
  end.

Definition vlift1 (f : Q -> Q) (a : val) : val :=
  match a with Num x => Num (f x) | NaN => NaN end.

Definition vadd := vlift2 Qplus.
Definition vsub := vlift2 Qminus.
Definition vmul := vlift2 Qmult.

(** Float division: a zero divisor gives a non-finite quotient. *)
Definition vdiv (a b : val) : val :=
  match a, b with
  | Num x, Num y => if Qeq_bool y 0 then NaN else Num (x / y)
  | _, _ => NaN
  end.

(** Comparisons with a NaN operand are false. *)
Definition vleb (a b : val) : bool :=
  match a, b with
  | Num x, Num y => Qle_bool x y
  | _, _ => false
  end.

Definition vltb (a b : val) : bool :=
  match a, b with
  | Num x, Num y => negb (Qle_bool y x)
  | _, _ => false
  end.

Definition vgtb (a b : val) : bool := vltb b a.

Definition Qltb (x y : Q) : bool := negb (Qle_bool y x).

Definition of_nat (n : nat) : Q := inject_Z (Z.of_nat n).

(** ** pandas Series: labelled values, in index order *)

Definition Series (A : Type) : Type := list (Z * A).

Definition index {A} (s : Series A) : list Z := map fst s.
Definition values {A} (s : Series A) : list A := map snd s.

(** [s[lo:hi]] for non-negative positions. *)
Definition slice {A} (lo hi : nat) (l : list A) : list A :=
  firstn (hi - lo) (skipn lo l).

(** [s.iloc[i]]. *)
Definition iloc {A} (s : Series A) (i : nat) : res A :=
  match nth_error s i with
  | Some (_, a) => Ok a
  | None => Raise IndexError
  end.

(** [pd.Series(data, index=idx)]: the lengths must agree. *)
Definition mk_series {A} (data : list A) (idx : list Z) : res (Series A) :=
  if Nat.eqb (length data) (length idx) then Ok (combine idx data)
  else Raise ValueError.

(** ** numpy / pandas reductions *)

Module Numpy.

Definition Qsum (l : list Q) : Q := fold_right Qplus 0 l.

(** Ascending sort (numpy partitions in place; only the order statistics
    matter). *)
Fixpoint insert (x : Q) (l : list Q) : list Q :=
  match l with
  | [] => [x]
  | y :: t => if Qle_bool x y then x :: y :: t else y :: insert x t
  end.

Definition sort (l : list Q) : list Q := fold_right insert [] l.

Fixpoint finite_values (l : list val) : option (list Q) :=
  match l with
  | [] => Some []
  | Num q :: t => option_map (cons q) (finite_values t)
  | NaN :: _ => None
  end.

(** The value at fractional position [h] of the ascending sample [s]:
    [s[k] + (s[k+1] - s[k]) * (h - k)] with [k = floor h], the upper
    neighbour clipped to the last position. *)
Definition interpolate (s : list Q) (h : Q) : Q :=
  let n := length s in
  let k := Z.to_nat (Qfloor h) in
  let lo := nth k s 0 in
  let hi := nth (Nat.min (S k) (n - 1)) s 0 in
  let gamma := h - inject_Z (Qfloor h) in
  lo + (hi - lo) * gamma.

(** [np.percentile(a, q)] with the default method ['linear']: the virtual
    index is [(n - 1) * q / 100].  A [q] outside [0, 100] is a ValueError, an
    empty sample has no order statistic to index, and a sample that holds a
    NaN has percentile NaN. *)
Definition percentile (a : list val) (q : Q) : res val :=
  let quantile := q / 100 in
  if negb (Qle_bool 0 quantile && Qle_bool quantile 1) then Raise ValueError
  else match a with
       | [] => Raise IndexError
       | _ :: _ =>
           match finite_values a with
           | None => Ok NaN
           | Some xs =>
               Ok (Num (interpolate (sort xs)
                          (of_nat (length xs - 1) * quantile)))
           end
       end.

(** [a.mean()] on an array: the mean of nothing is NaN (numpy warns and
    returns nan), and a NaN element makes the mean NaN. *)
Definition mean (a : list val) : val :=
  match finite_values a with
  | Some [] => NaN
  | Some xs => Num (Qsum xs / of_nat (length xs))
  | None => NaN
  end.

(** [a[a <= t]]: selection by a boolean mask. *)
Definition select_le (a : list val) (t : val) : list val :=
  filter (fun x => vleb x t) a.

(** [np.isclose(a, b)] with the defaults [rtol = 1e-05], [atol = 1e-08]:
    [|a - b| <= atol + rtol * |b|]. *)
Definition rtol : Q := 1 # 100000.
Definition atol : Q := 1 # 100000000.
Definition isclose (a b : Q) : bool :=
  Qle_bool (Qabs (a - b)) (atol + rtol * Qabs b).

End Numpy.

(** ** The mathematical library

    Functions of numpy and scipy on doubles, taken as they are; the two laws
    are the ones of a correctly rounded square root. *)
Class MathLib : Type := {
  sqrt : Q -> Q;
  log : Q -> Q;
  norm_ppf : Q -> Q;
  norm_pdf : Q -> Q;
  chi2_cdf : Q -> Q;      (* one degree of freedom *)
  sqrt_zero : forall x, x == 0 -> sqrt x == 0;
  sqrt_nonneg : forall x, 0 <= sqrt x
}.

(** ** The ambient random generator

    [standard_normal s n] hands out [n] standard normal variates from the
    generator in state [s] and the state it is left in. *)
Class Rng : Type := {
  rng_state : Type;
  standard_normal : rng_state -> nat -> list Q * rng_state;
  standard_normal_length :
    forall s n, length (fst (standard_normal s n)) = n
}.

(** Computations that may raise and that read and advance the ambient
    generator. *)
Definition M `{Rng} (A : Type) : Type := rng_state -> res (A * rng_state).

Definition ret `{Rng} {A} (a : A) : M A := fun s => Ok (a, s).

Definition bind `{Rng} {A B} (m : M A) (k : A -> M B) : M B :=
  fun s => match m s with
           | Ok (a, s') => k a s'
           | Raise e => Raise e
           end.

Definition lift `{Rng} {A} (r : res A) : M A :=
  fun s => match r with Ok a => Ok (a, s) | Raise e => Raise e end.

Definition throw `{Rng} {A} (e : exn) : M A := fun _ => Raise e.

Notation "x <- m ;; k" := (bind m (fun x => k))
  (at level 61, m at next level, right associativity).

(** The value a computation returns, when it returns. *)
Definition result_of {A S} (r : res (A * S)) : res A :=
  match r with Ok (a, _) => Ok a | Raise e => Raise e end.

Module Pandas.
Section Reductions.
Context {L : MathLib}.

(** [s.mean()]: NaN for no observation. *)
Definition mean (l : list Q) : val :=
  match l with
  | [] => NaN
  | _ :: _ => Num (Numpy.Qsum l / of_nat (length l))
  end.

(** Sum of squared deviations from [m]. *)
Definition sum_sq_dev (m : Q) (l : list Q) : Q :=
  Numpy.Qsum (map (fun x => (x - m) * (x - m)) l).

(** [s[s <= t]]: selection by a boolean mask; nothing compares below or
    equal to NaN. *)
Definition select_le (l : list Q) (t : val) : list Q :=
  filter (fun x => vleb (Num x) t) l.

(** [s.std()]: sample standard deviation ([ddof = 1]); NaN unless there are
    at least two observations. *)
Definition std (l : list Q) : val :=
  match l with
  | [] | [_] => NaN
  | _ :: _ :: _ =>
      match mean l with
      | Num m =>
          Num (sqrt (sum_sq_dev m l / of_nat (length l - 1)))
      | NaN => NaN
      end
  end.

(** [s.mean()] on a Series that may hold NaN: missing values are skipped
    ([skipna=True]), and the mean of nothing is NaN. *)
Fixpoint dropna (l : list val) : list Q :=
  match l with
  | [] => []
  | Num q :: t => q :: dropna t
  | NaN :: t => dropna t
  end.

Definition mean_skipna (l : list val) : val := mean (dropna l).

(** [s.cumprod()]: running products, the first entry being the first value
    itself. *)
Fixpoint cumprod_from (acc : Q) (l : list Q) : list Q :=
  match l with
  | [] => []
  | x :: t => acc * x :: cumprod_from (acc * x) t
  end.

Definition cumprod (l : list Q) : list Q :=
  match l with
  | [] => []
  | x :: t => x :: cumprod_from x t
  end.

End Reductions.
End Pandas.

Module NumpyRandom.
Section Draw.
Context {G : Rng}.

(** [np.random.normal(loc, scale, size)]: [loc + scale * z] for each
    standard normal draw [z]; a negative scale is a ValueError. *)
Definition normal (loc scale : val) (size : nat) : M (list val) :=
  fun s =>
    if vltb scale (Num 0) then Raise ValueError
    else let (zs, s') := standard_normal s size in
         Ok (map (fun z => vadd loc (vmul scale (Num z))) zs, s').

End Draw.
End NumpyRandom.

(** ** src/risk_metrics.py *)

Module RiskCalculator.

Record t : Type := {
  returns : Series Q;
  confidence_level : Q;
  alpha : Q
}.

(** [__init__(self, returns, confidence_level=0.95)]. *)
Definition init (returns : Series Q) (confidence_level : Q) : t :=
  {| returns := returns;
     confidence_level := confidence_level;
     alpha := 1 - confidence_level |}.

Record Metrics : Type := {
  Historical_VaR : val;
  Historical_CVaR : val;
  Parametric_VaR : val;
  Parametric_CVaR : val;
  Monte_Carlo_VaR : val;
  Monte_Carlo_CVaR : val
}.

Section Methods.
Context {L : MathLib} {G : Rng}.

Definition historical_var (self : t) : res val :=
  res_bind (Numpy.percentile (map Num (values (returns self)))
              (alpha self * 100))
    (fun var => Ok (vopp var)).

Definition historical_cvar (self : t) : res val :=
  res_bind (historical_var self) (fun hv =>
    let var := vopp hv in
    let cvar := Pandas.mean (Pandas.select_le (values (returns self)) var) in
    Ok (vopp cvar)).

Definition parametric_var (self : t) : val :=
  let mu := Pandas.mean (values (returns self)) in
  let sigma := Pandas.std (values (returns self)) in
  let z_score := Num (norm_ppf (alpha self)) in
  vopp (vadd mu (vmul sigma z_score)).

Definition parametric_cvar (self : t) : val :=
  let mu := Pandas.mean (values (returns self)) in
  let sigma := Pandas.std (values (returns self)) in
  let z_score := norm_ppf (alpha self) in
  vopp (vsub mu (vdiv (vmul sigma (Num (norm_pdf z_score)))
                      (Num (alpha self)))).

Definition monte_carlo_var (self : t) (n_simulations : nat) : M val :=
  let mu := Pandas.mean (values (returns self)) in
  let sigma := Pandas.std (values (returns self)) in
  simulated_returns <- NumpyRandom.normal mu sigma n_simulations ;;
  var <- lift (Numpy.percentile simulated_returns (alpha self * 100)) ;;
  ret (vopp var).

Definition monte_carlo_cvar (self : t) (n_simulations : nat) : M val :=
  let mu := Pandas.mean (values (returns self)) in
  let sigma := Pandas.std (values (returns self)) in
  simulated_returns <- NumpyRandom.normal mu sigma n_simulations ;;
  var <- lift (Numpy.percentile simulated_returns (alpha self * 100)) ;;
  let cvar := Numpy.mean (Numpy.select_le simulated_returns var) in
  ret (vopp cvar).

(** [get_all_metrics]: the six metrics, in the order the dictionary literal
    evaluates them, and the same scaled by [portfolio_value]. *)
Definition scale (k : Q) (m : Metrics) : Metrics :=
  {| Historical_VaR := vmul (Historical_VaR m) (Num k);
     Historical_CVaR := vmul (Historical_CVaR m) (Num k);
     Parametric_VaR := vmul (Parametric_VaR m) (Num k);
     Parametric_CVaR := vmul (Parametric_CVaR m) (Num k);
     Monte_Carlo_VaR := vmul (Monte_Carlo_VaR m) (Num k);
     Monte_Carlo_CVaR := vmul (Monte_Carlo_CVaR m) (Num k) |}.

Definition get_all_metrics (self : t) (portfolio_value : Q)
    (n_simulations : nat) : M (Metrics * Metrics) :=
  hv <- lift (historical_var self) ;;
  hc <- lift (historical_cvar self) ;;
  let pv := parametric_var self in
  let pc := parametric_cvar self in
  mv <- monte_carlo_var self n_simulations ;;
  mc <- monte_carlo_cvar self n_simulations ;;
  let metrics :=
    {| Historical_VaR := hv; Historical_CVaR := hc;
       Parametric_VaR := pv; Parametric_CVaR := pc;
       Monte_Carlo_VaR := mv; Monte_Carlo_CVaR := mc |} in
  ret (metrics, scale portfolio_value metrics).

End Methods.
End RiskCalculator.

(** ** src/backtesting.py *)

Module VaRBacktester.

Record t : Type := {
  returns : Series Q;
  var_estimates : Series val;
  confidence_level : Q;
  alpha : Q
}.

(** [__init__(self, returns, var_estimates, confidence_level=0.95)]. *)
Definition init (returns : Series Q) (var_estimates : Series val)
    (confidence_level : Q) : t :=
  {| returns := returns;
     var_estimates := var_estimates;
     confidence_level := confidence_level;
     alpha := 1 - confidence_level |}.

Record KupiecResult : Type := {
  n_violations : nat;
  n_observations : nat;
  violation_rate : val;
  expected_rate : Q;
  lr_statistic : val;
  p_value : val;
  reject_null : bool
}.

Fixpoint same_index (a b : list Z) : bool :=
  match a, b with
  | [], [] => true
  | x :: a', y :: b' => Z.eqb x y && same_index a' b'
  | _, _ => false
  end.

(** [losses > self.var_estimates] with [losses = -self.returns]: pandas
    compares two Series only when they carry the same labels. *)
Definition get_violations (self : t) : res (Series bool) :=
  if same_index (index (returns self)) (index (var_estimates self)) then
    Ok (map (fun '((d, r), (_, v)) => (d, vgtb (Num (- r)) v))
          (combine (returns self) (var_estimates self)))
  else Raise ValueError.

Definition count_true (l : list bool) : nat :=
  length (filter (fun b => b) l).

(** The local variable [var] of the loop, the two lists it appends to. *)
Record loop_state : Type := {
  var : option val;
  var_list : list val;
  actual_list : list Q
}.

Section Methods.
Context {L : MathLib} {G : Rng}.

Definition kupiec_test (self : t) : res KupiecResult :=
  res_bind (get_violations self) (fun violations =>
    let n_violations := count_true (values violations) in
    let n_obs := length violations in
    let violation_rate :=
      vdiv (Num (of_nat n_violations)) (Num (of_nat n_obs)) in
    let expected_rate := alpha self in
    let '(lr_stat, p_value) :=
      if Nat.eqb n_violations 0 || Nat.eqb n_violations n_obs then
        (Num 0, Num 1)
      else
        let x := Num (of_nat n_violations) in
        let rest := Num (of_nat (n_obs - n_violations)) in
        let lr_stat :=
          vmul (Num (- (2)))
            (vsub
               (vsub
                  (vadd (vmul x (Num (log expected_rate)))
                        (vmul rest (Num (log (1 - expected_rate)))))
                  (vmul x (vlift1 log violation_rate)))
               (vmul rest
                  (vlift1 log (vsub (Num 1) violation_rate)))) in
        (lr_stat, vsub (Num 1) (vlift1 chi2_cdf lr_stat)) in
    Ok {| n_violations := n_violations;
          n_observations := n_obs;
          violation_rate := violation_rate;
          expected_rate := expected_rate;
          lr_statistic := lr_stat;
          p_value := p_value;
          reject_null := vltb p_value (Num (5 # 100)) |}).

(** [calculate_avg_exceedance]: the mean of loss minus estimate over the
    violation dates, and the integer 0 when there is none.  Both masked
    selections keep the dates where [violations] is true. *)
Definition calculate_avg_exceedance (self : t) : res val :=
  res_bind (get_violations self) (fun violations =>
    if Nat.eqb (count_true (values violations)) 0 then Ok (Num 0)
    else
      let selected :=
        filter (fun '(_, (_, b)) => b)
          (combine (combine (returns self) (var_estimates self))
                   violations) in
      let exceedances :=
        map (fun '(((_, r), (_, v)), _) => vsub (Num (- r)) v) selected in
      Ok (Pandas.mean_skipna exceedances)).

(** The default [n_simulations] of [monte_carlo_var]. *)
Definition default_n_simulations : nat := Z.to_nat 10000.

(** The [if / elif / elif] chain of the loop body: an unmatched [method]
    leaves [var] as it was. *)
Definition select_var (method : string) (calc : RiskCalculator.t)
    (var : option val) : M (option val) :=
  if String.eqb method "historical" then
    v <- lift (RiskCalculator.historical_var calc) ;; ret (Some v)
  else if String.eqb method "parametric" then
    ret (Some (RiskCalculator.parametric_var calc))
  else if String.eqb method "monte_carlo" then
    v <- RiskCalculator.monte_carlo_var calc default_n_simulations ;;
    ret (Some v)
  else ret var.

(** One pass of the body of [for i in range(window, len(self.returns))]. *)
Definition loop_body (self : t) (window : nat) (method : string)
    (st : loop_state) (i : nat) : M loop_state :=
  let window_returns := slice (i - window) i (returns self) in
  let calc := RiskCalculator.init window_returns (confidence_level self) in
  var' <- select_var method calc (var st) ;;
  match var' with
  | None => throw UnboundLocalError
  | Some v =>
      r <- lift (iloc (returns self) i) ;;
      ret {| var := Some v;
             var_list := var_list st ++ [v];
             actual_list := actual_list st ++ [r] |}
  end.

Fixpoint for_each {S A} (body : S -> A -> M S) (l : list A) (st : S) : M S :=
  match l with
  | [] => ret st
  | i :: l' => st' <- body st i ;; for_each body l' st'
  end.

(** [rolling_var_backtest(self, window=252, method='historical')]. *)
Definition rolling_var_backtest (self : t) (window : nat) (method : string)
    : M (Series val * Series Q) :=
  let n := length (returns self) in
  st <- for_each (loop_body self window method) (seq window (n - window))
          {| var := None; var_list := []; actual_list := [] |} ;;
  let idx := skipn window (index (returns self)) in
  var_estimates <- lift (mk_series (var_list st) idx) ;;
  actual_returns <- lift (mk_series (actual_list st) idx) ;;
  ret (var_estimates, actual_returns).

End Methods.
End VaRBacktester.

(** ** src/portfolio.py *)

Module Portfolio.

(** A DataFrame of asset returns: column labels and dated rows. *)
Record DataFrame : Type := {
  columns : list string;
  rows : Series (list Q)
}.

Record t : Type := {
  returns : DataFrame;
  assets : list string;
  n_assets : nat;
  weights : list Q
}.

(** [__init__(self, returns, weights=None)]. *)
Definition init (returns : DataFrame) (weights : option (list Q)) : res t :=
  let assets := columns returns in
  let n_assets := length assets in
  match weights with
  | None =>
      Ok {| returns := returns; assets := assets; n_assets := n_assets;
            weights := repeat (1 / of_nat n_assets) n_assets |}
  | Some w =>
      if Numpy.isclose (Numpy.Qsum w) 1 then
        Ok {| returns := returns; assets := assets; n_assets := n_assets;
              weights := w |}
      else Raise AssertionError
  end.

Fixpoint dot (row w : list Q) : Q :=
  match row, w with
  | r :: row', x :: w' => r * x + dot row' w'
  | _, _ => 0
  end.

(** [(self.returns * self.weights).sum(axis=1)]: the weights broadcast along
    the columns, so their number must be the number of columns. *)
Definition portfolio_returns (self : t) : res (Series Q) :=
  if Nat.eqb (length (weights self)) (length (columns (returns self))) then
    Ok (map (fun '(d, row) => (d, dot row (weights self)))
          (rows (returns self)))
  else Raise ValueError.

(** [initial_value * (1 + portfolio_rets).cumprod()]. *)
Definition portfolio_value (self : t) (initial_value : Q) : res (Series Q) :=
  res_bind (portfolio_returns self) (fun portfolio_rets =>
    let growth :=
      Pandas.cumprod (map (fun r => 1 + r) (values portfolio_rets)) in
    Ok (combine (index portfolio_rets)
          (map (fun g => initial_value * g) growth))).

End Portfolio.

(** * Specification-level notions *)

(** [v] is the linear-interpolated empirical [p]-quantile of the sample
    [xs]: with the sample in ascending order [s] and [h = (n - 1) * p], it
    lies on the segment from the order statistic of rank [floor h] to the
    next one, at the fraction [h - floor h]. *)
Definition linear_percentile (xs : list Q) (p v : Q) : Prop :=
  exists s k,
    Permutation s xs /\ StronglySorted Qle s /\ (k < length s)%nat /\
    of_nat k <= of_nat (length xs - 1) * p /\
    of_nat (length xs - 1) * p < of_nat k + 1 /\
    v == nth k s 0
         + (nth (Nat.min (S k) (length s - 1)) s 0 - nth k s 0)
           * (of_nat (length xs - 1) * p - of_nat k).

(** A call returns a finite number within [tol] of [target]. *)
Definition returns_near (r : res val) (target tol : Q) : Prop :=
  match r with
  | Ok (Num x) => Qabs (x - target) <= tol
  | _ => False
  end.

(** The sample mean and the sample standard deviation, as formulas. *)
Definition sample_mean (xs : list Q) : Q :=
  Numpy.Qsum xs / of_nat (length xs).

Definition sample_std {L : MathLib} (xs : list Q) : Q :=
  sqrt (Pandas.sum_sq_dev (sample_mean xs) xs / of_nat (length xs - 1)).

(** The simulated sample for finite moments: [mu + sigma * z] per draw. *)
Definition simulated (mu sigma : Q) (zs : list Q) : list Q :=
  map (fun z => mu + sigma * z) zs.

(** The number of dates whose loss exceeds the estimate for that date. *)
Definition violation_count (rs : Series Q) (ve : Series val) : nat :=
  length (filter (fun '((_, r), (_, v)) => vgtb (Num (- r)) v)
            (combine rs ve)).

(** The proportion-of-failures likelihood ratio for [x] violations in [n]
    observations at expected rate [a]. *)
Definition kupiec_lr {L : MathLib} (x n : nat) (a : Q) : Q :=
  - (2) * (of_nat x * log a
           + of_nat (n - x) * log (1 - a)
           - of_nat x * log (of_nat x / of_nat n)
           - of_nat (n - x) * log (1 - of_nat x / of_nat n)).

(** The three values of [method] the loop dispatches on. *)
Definition known_method (m : string) : Prop :=
  m = "historical"%string \/ m = "parametric"%string
  \/ m = "monte_carlo"%string.

(** The calculator the loop of rolling_var_backtest builds at index [i]. *)
Definition calc_at (self : VaRBacktester.t) (W i : nat) : RiskCalculator.t :=
  RiskCalculator.init (slice (i - W) i (VaRBacktester.returns self))
    (VaRBacktester.confidence_level self).

(** The series [a * r + b], date by date. *)
Definition affine_series (a b : Q) (rs : Series Q) : Series Q :=
  map (fun '(d, r) => (d, a * r + b)) rs.

(** A Series of finite estimates, as a Series of values. *)
Definition finite_series (s : Series Q) : Series val :=
  map (fun '(d, q) => (d, Num q)) s.

(** What one pass of the rolling loop does to the ambient generator: the
    Monte Carlo method draws its default number of variates, the other two
    draw nothing. *)
Definition rolling_step {G : Rng} (m : string) (s : rng_state) : rng_state :=
  if String.eqb m "monte_carlo"
  then snd (standard_normal s VaRBacktester.default_n_simulations)
  else s.

(** The product of a list of numbers. *)
Definition Qprod (l : list Q) : Q := fold_right Qmult 1 l.

(** [pd.Series(v, index=idx)] for a scalar [v]: the value at every label. *)
Definition constant_series {A} (idx : list Z) (v : A) : Series A :=
  map (fun d => (d, v)) idx.

(** The in-sample backtest of [app.py] and of [tests/test_risk_metrics.py]:
    the historical VaR of the series, held constant over its dates, tested
    against the same series. *)
Definition in_sample_backtester (port_returns : Series Q)
    (confidence_level : Q) : res VaRBacktester.t :=
  res_bind
    (RiskCalculator.historical_var
       (RiskCalculator.init port_returns confidence_level))
    (fun var =>
       Ok (VaRBacktester.init port_returns
             (constant_series (index port_returns) var) confidence_level)).

(** ** Computable instances

    [ToyMath] runs the definitions on concrete inputs: its square root is
    exact on squares of rationals (and truncated to twelve decimals
    otherwise); the other functions are coarse rational stand-ins, with the
    usual quantiles of the normal law tabulated. *)

Module Toy.

Definition qsqrt (x : Q) : Q :=
  let r := Qred x in
  let d := Zpos (Qden r) in
  Qmake (Z.sqrt (Qnum r * d * 10 ^ 24)) (Qden r * 10 ^ 12).

(** [2 * atanh((x - 1) / (x + 1))], three terms. *)
Definition qlog (x : Q) : Q :=
  let y := (x - 1) / (x + 1) in
  2 * (y + y * y * y / 3 + y * y * y * y * y / 5).

Definition qnorm_ppf (p : Q) : Q :=
  if Qeq_bool p (1 # 100) then - (232635 # 100000)
  else if Qeq_bool p (5 # 100) then - (164485 # 100000)
  else if Qeq_bool p (10 # 100) then - (128155 # 100000)
  else if Qeq_bool p (20 # 100) then - (84162 # 100000)
  else qlog (p / (1 - p)) * (10 # 17).

Definition qnorm_pdf (z : Q) : Q :=
  (39894 # 100000)
  / (1 + z * z / 2 + z * z * z * z / 8 + z * z * z * z * z * z / 48).

Definition qchi2_cdf (x : Q) : Q :=
  if Qle_bool x 0 then 0 else x / (x + 1).

(** A generator that walks a fixed table of ten variates. *)
Definition table : list Q :=
  [ - (12 # 10); 3 # 10; - (4 # 10); 11 # 10; 2 # 10;
    5 # 10; 13 # 10; 1 # 10; 9 # 10; 16 # 10 ].

Definition draw (i : nat) : Q := nth (i mod 10) table 0.

Definition draws (s : nat) (n : nat) : list Q * nat :=
  (map draw (seq s n), (s + n)%nat).

End Toy.

#[export] Instance ToyMath : MathLib.
Proof.
  refine {| sqrt := Toy.qsqrt;
            log := Toy.qlog;
            norm_ppf := Toy.qnorm_ppf;
            norm_pdf := Toy.qnorm_pdf;
            chi2_cdf := Toy.qchi2_cdf |}.
  - intros x Hx. unfold Toy.qsqrt.
    assert (E : Qred x = Qred 0) by (apply Qred_complete; exact Hx).
    rewrite E. reflexivity.
  - intros x. unfold Toy.qsqrt, Qle. simpl.
    rewrite Z.mul_1_r. apply Z.sqrt_nonneg.
Defined.

#[export] Instance ToyRng : Rng.
Proof.
  refine {| rng_state := nat; standard_normal := Toy.draws |}.
  intros s n. unfold Toy.draws. simpl.
  rewrite length_map. apply length_seq.
Defined.

(** Concrete data used below. *)
Definition dated {A} (l : list A) : Series A :=
  combine (map Z.of_nat (seq 0 (length l))) l.

Definition sample5 : Series Q :=
  dated [ - (5 # 100); - (3 # 100); - (1 # 100); 0; 2 # 100 ].

Definition sample3 : Series Q := dated [ - (1 # 100); 0; 1 # 100 ].


Definition flat3 : Series Q := dated [ 1 # 100; 1 # 100; 1 # 100 ].

Definition two_assets : Portfolio.DataFrame :=
  {| Portfolio.columns := ["AAA"; "BBB"]%string;
     Portfolio.rows := [ (0%Z, [1 # 100; - (2 # 100)]);
                         (1%Z, [- (1 # 100); 3 # 100]) ] |}.

(** Two assets held half and half. *)
Definition half_half : Portfolio.t :=
  {| Portfolio.returns := two_assets;
     Portfolio.assets := Portfolio.columns two_assets;
     Portfolio.n_assets := 2;
     Portfolio.weights := [1 # 2; 1 # 2] |}.

(** A VaR estimate series holding [v] at every date of [rs]. *)
Definition flat_estimate (rs : Series Q) (v : Q) : Series val :=
  map (fun '(d, _) => (d, Num v)) rs.


(** * Facts about the library model *)

Section ListFacts.

Lemma Qle_bool_false : forall x y, Qle_bool x y = false -> y <= x.
Proof.
  intros x y H. destruct (Qlt_le_dec y x) as [Hlt | Hle].
  - apply Qlt_le_weak; exact Hlt.
  - apply Qle_bool_iff in Hle. congruence.
Qed.

Lemma of_nat_nonneg : forall n, 0 <= of_nat n.
Proof.
  intros n. unfold of_nat, Qle. simpl. lia.
Qed.

Lemma of_nat_pos : forall n, (0 < n)%nat -> 0 < of_nat n.
Proof.
  intros n Hn. unfold of_nat, Qlt. simpl. lia.
Qed.

Lemma of_nat_S : forall n, of_nat (S n) == of_nat n + 1.
Proof.
  intros n. unfold of_nat. rewrite Nat2Z.inj_succ, <- Z.add_1_r.
  rewrite inject_Z_plus. reflexivity.
Qed.

Lemma insert_perm : forall x l, Permutation (Numpy.insert x l) (x :: l).
Proof.
  intros x l. induction l as [| y t IH]; simpl.
  - apply Permutation_refl.
  - destruct (Qle_bool x y).
    + apply Permutation_refl.
    + eapply Permutation_trans.
      * apply perm_skip. exact IH.
      * apply perm_swap.
Qed.

Lemma sort_perm : forall l, Permutation (Numpy.sort l) l.
Proof.
  induction l as [| x t IH]; simpl.
  - apply perm_nil.
  - eapply Permutation_trans.
    + apply insert_perm.
    + apply perm_skip. exact IH.
Qed.

Lemma sort_length : forall l, length (Numpy.sort l) = length l.
Proof.
  intros l. apply Permutation_length, sort_perm.
Qed.

Lemma insert_sorted : forall x l,
  StronglySorted Qle l -> StronglySorted Qle (Numpy.insert x l).
Proof.
  intros x l Hs. induction Hs as [| y t Ht IH Hall]; simpl.
  - constructor; constructor.
  - destruct (Qle_bool x y) eqn:E.
    + apply Qle_bool_iff in E. constructor.
      * constructor; assumption.
      * constructor; [exact E |].
        eapply Forall_impl; [| exact Hall].
        intros a Ha. eapply Qle_trans; eassumption.
    + apply Qle_bool_false in E. constructor; [exact IH |].
      eapply Permutation_Forall.
      * apply Permutation_sym, insert_perm.
      * constructor; assumption.
Qed.

Lemma sort_sorted : forall l, StronglySorted Qle (Numpy.sort l).
Proof.
  induction l as [| x t IH]; simpl.
  - constructor.
  - apply insert_sorted. exact IH.
Qed.

(** In an ascending list the order statistics grow with the rank. *)
Lemma sorted_nth_le : forall s i j,
  StronglySorted Qle s -> (i <= j)%nat -> (j < length s)%nat ->
  nth i s 0 <= nth j s 0.
Proof.
  intros s i j Hs. revert i j.
  induction Hs as [| x t Ht IH Hall]; intros i j Hij Hj; simpl in Hj.
  - lia.
  - destruct i as [| i], j as [| j]; simpl; try lia.
    + apply Qle_refl.
    + rewrite Forall_forall in Hall. apply Hall. apply nth_In. lia.
    + apply IH; lia.
Qed.

Lemma finite_values_map_Num : forall xs,
  Numpy.finite_values (map Num xs) = Some xs.
Proof.
  induction xs as [| x t IH]; simpl.
  - reflexivity.
  - rewrite IH. reflexivity.
Qed.

Lemma Qsum_const : forall l c,
  (forall x, In x l -> x == c) -> Numpy.Qsum l == of_nat (length l) * c.
Proof.
  induction l as [| a l IH]; intros c H.
  - change (0 == 0 * c). lra.
  - change (Numpy.Qsum (a :: l)) with (a + Numpy.Qsum l).
    change (length (a :: l)) with (S (length l)).
    rewrite of_nat_S.
    assert (Ha : a == c) by (apply H; left; reflexivity).
    assert (Hl : Numpy.Qsum l == of_nat (length l) * c)
      by (apply IH; intros x Hx; apply H; right; exact Hx).
    lra.
Qed.

Lemma mean_const : forall l c,
  l <> [] -> (forall x, In x l -> x == c) ->
  Numpy.Qsum l / of_nat (length l) == c.
Proof.
  intros l c Hne H.
  assert (Hpos : 0 < of_nat (length l)).
  { apply of_nat_pos. destruct l; [congruence | simpl; lia]. }
  rewrite (Qsum_const l c H). field. lra.
Qed.

End ListFacts.

Section PercentileFacts.

Lemma quantile_of_alpha : forall a, a * 100 / 100 == a.
Proof.
  intros a. field.
Qed.

Lemma percentile_Num : forall xs a,
  xs <> [] -> 0 <= a -> a <= 1 ->
  Numpy.percentile (map Num xs) (a * 100) =
  Ok (Num (Numpy.interpolate (Numpy.sort xs)
             (of_nat (length xs - 1) * (a * 100 / 100)))).
Proof.
  intros xs a Hne H0 H1. unfold Numpy.percentile.
  assert (E0 : Qle_bool 0 (a * 100 / 100) = true).
  { apply Qle_bool_iff. rewrite quantile_of_alpha. exact H0. }
  assert (E1 : Qle_bool (a * 100 / 100) 1 = true).
  { apply Qle_bool_iff. rewrite quantile_of_alpha. exact H1. }
  rewrite E0, E1. simpl negb. cbv iota.
  destruct xs as [| x t]; [congruence |].
  rewrite finite_values_map_Num. reflexivity.
Qed.

Lemma rank_bounds : forall n a,
  0 <= a -> a <= 1 ->
  0 <= of_nat n * (a * 100 / 100) /\ of_nat n * (a * 100 / 100) <= of_nat n.
Proof.
  intros n a H0 H1. rewrite quantile_of_alpha.
  pose proof (of_nat_nonneg n) as Hn. split; nra.
Qed.

(** The rank [k = floor h] and what [interpolate] returns at it. *)
Lemma interpolate_rank : forall s h,
  s <> [] -> 0 <= h -> h <= of_nat (length s - 1) ->
  let k := Z.to_nat (Qfloor h) in
  (k < length s)%nat /\ of_nat k <= h /\ h < of_nat k + 1 /\
  Numpy.interpolate s h =
    nth k s 0 + (nth (Nat.min (S k) (length s - 1)) s 0 - nth k s 0)
                * (h - of_nat k).
Proof.
  intros s h Hne H0 Hn k.
  assert (Hf0 : (0 <= Qfloor h)%Z).
  { change 0%Z with (Qfloor 0). apply Qfloor_resp_le. exact H0. }
  assert (Hfn : (Qfloor h <= Z.of_nat (length s - 1))%Z).
  { rewrite <- (Qfloor_Z (Z.of_nat (length s - 1))).
    apply Qfloor_resp_le. exact Hn. }
  assert (Hk : of_nat k = inject_Z (Qfloor h)).
  { unfold of_nat, k. rewrite Z2Nat.id by exact Hf0. reflexivity. }
  assert (Hlen : (0 < length s)%nat).
  { destruct s; [congruence | simpl; lia]. }
  repeat split.
  - unfold k. lia.
  - rewrite Hk. apply Qfloor_le.
  - rewrite Hk. pose proof (Qlt_floor h) as Hlt.
    rewrite inject_Z_plus in Hlt. exact Hlt.
  - unfold Numpy.interpolate. fold k. rewrite Hk. reflexivity.
Qed.

(** The interpolated value never falls below the smallest observation. *)
Lemma interpolate_ge_first : forall s h,
  StronglySorted Qle s -> s <> [] -> 0 <= h -> h <= of_nat (length s - 1) ->
  nth 0 s 0 <= Numpy.interpolate s h.
Proof.
  intros s h Hs Hne H0 Hn.
  destruct (interpolate_rank s h Hne H0 Hn) as (Hk & Hlo & _ & E).
  rewrite E. set (k := Z.to_nat (Qfloor h)) in *.
  assert (A : nth 0 s 0 <= nth k s 0) by (apply sorted_nth_le; auto; lia).
  assert (B : nth k s 0 <= nth (Nat.min (S k) (length s - 1)) s 0)
    by (apply sorted_nth_le; auto; lia).
  assert (C : 0 <= (nth (Nat.min (S k) (length s - 1)) s 0 - nth k s 0)
                   * (h - of_nat k))
    by (apply Qmult_le_0_compat; lra).
  lra.
Qed.

(** On a sample whose values all equal [c] the interpolated value is [c]. *)
Lemma interpolate_const : forall s h c,
  (forall x, In x s -> x == c) ->
  s <> [] -> 0 <= h -> h <= of_nat (length s - 1) ->
  Numpy.interpolate s h == c.
Proof.
  intros s h c Hc Hne H0 Hn.
  destruct (interpolate_rank s h Hne H0 Hn) as (Hk & _ & _ & E).
  rewrite E. set (k := Z.to_nat (Qfloor h)) in *.
  assert (A : nth k s 0 == c) by (apply Hc, nth_In; exact Hk).
  assert (B : nth (Nat.min (S k) (length s - 1)) s 0 == c)
    by (apply Hc, nth_In; lia).
  rewrite A, B. ring.
Qed.

Lemma sort_nonempty : forall xs, xs <> [] -> Numpy.sort xs <> [].
Proof.
  intros xs Hne E. apply Hne.
  apply length_zero_iff_nil. rewrite <- sort_length, E. reflexivity.
Qed.

(** The percentile of a non-empty finite sample, as a number [p] that is at
    least one of the observations. *)
Lemma percentile_value : forall xs a,
  xs <> [] -> 0 <= a -> a <= 1 ->
  exists p,
    Numpy.percentile (map Num xs) (a * 100) = Ok (Num p) /\
    p = Numpy.interpolate (Numpy.sort xs)
          (of_nat (length xs - 1) * (a * 100 / 100)) /\
    exists x, In x xs /\ x <= p.
Proof.
  intros xs a Hne H0 H1. eexists. split; [apply percentile_Num; assumption |].
  split; [reflexivity |].
  exists (nth 0 (Numpy.sort xs) 0). split.
  - eapply Permutation_in; [apply sort_perm |].
    apply nth_In. rewrite sort_length.
    destruct xs; [congruence | simpl; lia].
  - destruct (rank_bounds (length xs - 1) a H0 H1) as [Ha Hb].
    apply interpolate_ge_first.
    + apply sort_sorted.
    + apply sort_nonempty; exact Hne.
    + exact Ha.
    + rewrite sort_length. exact Hb.
Qed.

End PercentileFacts.

(** * Historical VaR and CVaR *)

Lemma historical_var_value : forall rs cl,
  rs <> [] -> 0 <= cl -> cl <= 1 ->
  exists p,
    RiskCalculator.historical_var (RiskCalculator.init rs cl) = Ok (Num (- p))
    /\ p = Numpy.interpolate (Numpy.sort (values rs))
             (of_nat (length (values rs) - 1) * ((1 - cl) * 100 / 100))
    /\ exists x, In x (values rs) /\ x <= p.
Proof.
  intros rs cl Hne H0 H1.
  assert (Hv : values rs <> []).
  { destruct rs; [congruence | discriminate]. }
  destruct (percentile_value (values rs) (1 - cl) Hv) as (p & E & Hp & Hx);
    try lra.
  exists p. split; [| split; assumption].
  unfold RiskCalculator.historical_var. simpl.
  rewrite E. reflexivity.
Qed.

(** C1, as the code has it: historical_var is the negated linear-interpolated
    empirical alpha-percentile of the sample (numpy's default rule, virtual
    index (n - 1) * alpha), and on [-0.05, -0.03, -0.01, 0.0, 0.02] at
    confidence 0.80 it returns 0.034. *)
Theorem historical_var_linear_percentile :
  (forall rs cl, rs <> [] -> 0 <= cl -> cl <= 1 ->
     exists p,
       RiskCalculator.historical_var (RiskCalculator.init rs cl)
         = Ok (Num (- p))
       /\ linear_percentile (values rs) (1 - cl) p)
  /\ returns_near
       (RiskCalculator.historical_var (RiskCalculator.init sample5 (80 # 100)))
       (34 # 1000) 0.
Proof.
  split.
  - intros rs cl Hne H0 H1.
    destruct (historical_var_value rs cl Hne H0 H1) as (p & E & Hp & _).
    exists p. split; [exact E |].
    assert (Hv : values rs <> []).
    { destruct rs; [congruence | discriminate]. }
    destruct (rank_bounds (length (values rs) - 1) (1 - cl)) as [Ha Hb];
      try lra.
    remember (of_nat (length (values rs) - 1) * ((1 - cl) * 100 / 100))
      as h eqn:Eh.
    assert (Hh : h == of_nat (length (values rs) - 1) * (1 - cl)).
    { rewrite Eh, quantile_of_alpha. reflexivity. }
    destruct (interpolate_rank (Numpy.sort (values rs)) h) as (Hk & Hlo & Hhi & Ei).
    + apply sort_nonempty; exact Hv.
    + exact Ha.
    + rewrite sort_length. exact Hb.
    + exists (Numpy.sort (values rs)), (Z.to_nat (Qfloor h)).
      repeat split.
      * apply sort_perm.
      * apply sort_sorted.
      * exact Hk.
      * lra.
      * lra.
      * rewrite Hp, Ei.
        apply Qplus_comp; [reflexivity |].
        apply Qmult_comp; [reflexivity | lra].
  - vm_compute. intros H; discriminate H.
Qed.

(** The theorem at the sample of the specification. *)
Lemma historical_var_linear_percentile_witness :
  exists p,
    RiskCalculator.historical_var (RiskCalculator.init sample5 (80 # 100))
      = Ok (Num (- p))
    /\ linear_percentile (values sample5) (1 - (80 # 100)) p.
Proof.
  apply (proj1 historical_var_linear_percentile sample5 (80 # 100)).
  - discriminate.
  - unfold Qle; simpl; lia.
  - unfold Qle; simpl; lia.
Defined.

(** C1 as the specification words it fails: on that sample the result is
    0.034, more than 0.005 away from 0.042. *)
Lemma historical_var_sample5_not_0042 :
  exists x,
    RiskCalculator.historical_var (RiskCalculator.init sample5 (80 # 100))
      = Ok (Num x)
    /\ x == 34 # 1000
    /\ 5 # 1000 < Qabs (x - (42 # 1000)).
Proof.
  eexists. split; [reflexivity |]. split; reflexivity.
Qed.

Lemma historical_cvar_value : forall rs cl,
  rs <> [] -> 0 <= cl -> cl <= 1 ->
  exists hv tail,
    RiskCalculator.historical_var (RiskCalculator.init rs cl) = Ok (Num hv)
    /\ tail = filter (fun x => Qle_bool x (- hv)) (values rs)
    /\ tail <> []
    /\ RiskCalculator.historical_cvar (RiskCalculator.init rs cl)
       = Ok (Num (- (Numpy.Qsum tail / of_nat (length tail)))).
Proof.
  intros rs cl Hne H0 H1.
  destruct (historical_var_value rs cl Hne H0 H1) as (p & E & _ & x & Hin & Hx).
  exists (- p), (filter (fun x => Qle_bool x (- - p)) (values rs)).
  split; [exact E |]. split; [reflexivity |].
  assert (Hmem : In x (filter (fun x => Qle_bool x (- - p)) (values rs))).
  { apply filter_In. split; [exact Hin |]. apply Qle_bool_iff. lra. }
  split.
  - intros Hnil. rewrite Hnil in Hmem. exact Hmem.
  - unfold RiskCalculator.historical_cvar. rewrite E.
    unfold res_bind, Pandas.select_le, vopp, RiskCalculator.returns,
      RiskCalculator.init.
    change (fun x0 : Q => vleb (Num x0) (Num (- - p)))
      with (fun x0 : Q => Qle_bool x0 (- - p)).
    destruct (filter (fun x0 => Qle_bool x0 (- - p)) (values rs)) eqn:Ef.
    + contradiction.
    + reflexivity.
Qed.

(** C7: on a non-empty series historical_cvar is the negated mean of the
    observations at or below the signed VaR threshold; that tail always
    holds the smallest observation, so the result is a finite number and the
    average of an empty selection is never taken. *)
Theorem historical_cvar_tail_mean : forall rs cl,
  rs <> [] -> 0 <= cl -> cl <= 1 ->
  exists hv tail,
    RiskCalculator.historical_var (RiskCalculator.init rs cl) = Ok (Num hv)
    /\ tail = filter (fun x => Qle_bool x (- hv)) (values rs)
    /\ tail <> []
    /\ RiskCalculator.historical_cvar (RiskCalculator.init rs cl)
       = Ok (Num (- (Numpy.Qsum tail / of_nat (length tail)))).
Proof.
  exact historical_cvar_value.
Qed.

Lemma historical_cvar_tail_mean_witness :
  exists hv tail,
    RiskCalculator.historical_var (RiskCalculator.init sample5 (80 # 100))
      = Ok (Num hv)
    /\ tail = filter (fun x => Qle_bool x (- hv)) (values sample5)
    /\ tail <> []
    /\ RiskCalculator.historical_cvar (RiskCalculator.init sample5 (80 # 100))
       = Ok (Num (- (Numpy.Qsum tail / of_nat (length tail)))).
Proof.
  apply (historical_cvar_tail_mean sample5 (80 # 100)).
  - discriminate.
  - unfold Qle; simpl; lia.
  - unfold Qle; simpl; lia.
Defined.

(** * Sample moments *)

Section MomentFacts.
Context {L : MathLib}.

Lemma pandas_mean_value : forall xs,
  xs <> [] -> Pandas.mean xs = Num (sample_mean xs).
Proof.
  intros xs Hne. destruct xs; [congruence | reflexivity].
Qed.

Lemma pandas_std_value : forall xs,
  (2 <= length xs)%nat -> Pandas.std xs = Num (sample_std xs).
Proof.
  intros xs Hlen. destruct xs as [| a [| b t]]; simpl in Hlen; try lia.
  reflexivity.
Qed.

Lemma pandas_std_not_negative : forall xs,
  vltb (Pandas.std xs) (Num 0) = false.
Proof.
  intros xs. destruct xs as [| a [| b t]]; try reflexivity.
  rewrite pandas_std_value by (simpl; lia).
  unfold vltb, sample_std.
  assert (H : Qle_bool 0
                (sqrt (Pandas.sum_sq_dev (sample_mean (a :: b :: t))
                         (a :: b :: t)
                       / of_nat (length (a :: b :: t) - 1))) = true)
    by (apply Qle_bool_iff, sqrt_nonneg).
  rewrite H. reflexivity.
Qed.

Lemma values_length : forall {A} (rs : Series A),
  length (values rs) = length rs.
Proof.
  intros A rs. unfold values. apply length_map.
Qed.

(** Moments of a constant sample. *)
Lemma sample_mean_const : forall xs c,
  xs <> [] -> (forall x, In x xs -> x == c) -> sample_mean xs == c.
Proof.
  intros xs c Hne Hc. apply mean_const; assumption.
Qed.

Lemma sample_std_const : forall xs c,
  xs <> [] -> (forall x, In x xs -> x == c) -> sample_std xs == 0.
Proof.
  intros xs c Hne Hc. unfold sample_std. apply sqrt_zero.
  assert (Hm : sample_mean xs == c) by (apply sample_mean_const; assumption).
  assert (Hs : Pandas.sum_sq_dev (sample_mean xs) xs
               == of_nat (length (map (fun x => (x - sample_mean xs)
                                               * (x - sample_mean xs)) xs))
                  * 0).
  { unfold Pandas.sum_sq_dev. apply Qsum_const.
    intros y Hy. apply in_map_iff in Hy. destruct Hy as (x & Ex & Hx).
    subst y. rewrite (Hc x Hx), Hm. ring. }
  rewrite Hs. unfold Qdiv. ring.
Qed.

End MomentFacts.

(** * Parametric VaR *)

(** C5: with mu and sigma the sample mean and the sample standard deviation
    of the series and z the standard-normal inverse CDF at 1 - confidence,
    parametric_var returns -(mu + sigma * z); when mu = 0, sigma = 0.01 and
    confidence = 0.95 (where z is -1.645 to three decimals) that is 0.01645
    to within 0.000002. *)
Theorem parametric_var_formula : forall (L : MathLib) rs cl,
  (2 <= length rs)%nat ->
  let mu := sample_mean (values rs) in
  let sigma := sample_std (values rs) in
  RiskCalculator.parametric_var (RiskCalculator.init rs cl)
    = Num (- (mu + sigma * norm_ppf (1 - cl)))
  /\ (mu == 0 -> sigma == 1 # 100 -> cl = 95 # 100 ->
      - (16449 # 10000) <= norm_ppf (1 - cl) ->
      norm_ppf (1 - cl) <= - (16448 # 10000) ->
      returns_near
        (Ok (RiskCalculator.parametric_var (RiskCalculator.init rs cl)))
        (1645 # 100000) (2 # 1000000)).
Proof.
  intros L rs cl Hlen mu sigma.
  assert (E : RiskCalculator.parametric_var (RiskCalculator.init rs cl)
              = Num (- (mu + sigma * norm_ppf (1 - cl)))).
  { unfold RiskCalculator.parametric_var. simpl.
    rewrite pandas_mean_value, pandas_std_value.
    - reflexivity.
    - rewrite values_length. exact Hlen.
    - intros Hnil. apply (f_equal (@length Q)) in Hnil.
      rewrite values_length in Hnil. simpl in Hnil. lia. }
  split; [exact E |].
  intros Hmu Hsigma Hcl Hlo Hhi. rewrite E. unfold returns_near.
  set (z := norm_ppf (1 - cl)) in *.
  apply Qabs_Qle_condition. rewrite Hmu, Hsigma. split; lra.
Qed.

(** The theorem on [-0.01, 0, 0.01], whose mean is 0 and whose sample
    standard deviation is 0.01. *)
Lemma parametric_var_formula_witness :
  RiskCalculator.parametric_var (RiskCalculator.init sample3 (95 # 100))
    = Num (- (sample_mean (values sample3)
              + sample_std (values sample3) * norm_ppf (1 - (95 # 100))))
  /\ returns_near
       (Ok (RiskCalculator.parametric_var
              (RiskCalculator.init sample3 (95 # 100))))
       (1645 # 100000) (2 # 1000000).
Proof.
  assert (Hlen : (2 <= length sample3)%nat) by (simpl; lia).
  pose proof (parametric_var_formula ToyMath sample3 (95 # 100) Hlen) as H.
  split.
  - exact (proj1 H).
  - apply (proj2 H).
    + vm_compute; reflexivity.
    + vm_compute; reflexivity.
    + reflexivity.
    + vm_compute; discriminate.
    + vm_compute; discriminate.
Defined.

(** * Monte Carlo VaR and CVaR *)

Section MonteCarloFacts.
Context {L : MathLib} {G : Rng}.

Lemma percentile_total : forall a al,
  a <> [] -> 0 <= al -> al <= 1 ->
  exists v, Numpy.percentile a (al * 100) = Ok v.
Proof.
  intros a al Hne H0 H1. unfold Numpy.percentile.
  assert (E0 : Qle_bool 0 (al * 100 / 100) = true).
  { apply Qle_bool_iff. rewrite quantile_of_alpha. exact H0. }
  assert (E1 : Qle_bool (al * 100 / 100) 1 = true).
  { apply Qle_bool_iff. rewrite quantile_of_alpha. exact H1. }
  rewrite E0, E1. simpl negb. cbv iota.
  destruct a as [| x t]; [congruence |].
  destruct (Numpy.finite_values (x :: t)); eexists; reflexivity.
Qed.

(** monte_carlo_var returns on every series, and leaves the generator in the
    state after [n] draws. *)
Lemma monte_carlo_var_total : forall self n s,
  (0 < n)%nat ->
  0 <= RiskCalculator.alpha self -> RiskCalculator.alpha self <= 1 ->
  exists v,
    RiskCalculator.monte_carlo_var self n s
    = Ok (v, snd (standard_normal s n)).
Proof.
  intros self n s Hn H0 H1.
  unfold RiskCalculator.monte_carlo_var, bind, NumpyRandom.normal.
  rewrite pandas_std_not_negative.
  pose proof (standard_normal_length s n) as Hlen.
  destruct (standard_normal s n) as [zs s'] eqn:Ez. simpl in Hlen.
  set (a := map _ zs).
  assert (Ha : a <> []).
  { unfold a. destruct zs; [simpl in Hlen; lia | discriminate]. }
  destruct (percentile_total a (RiskCalculator.alpha self) Ha H0 H1)
    as (v & Ev).
  unfold lift. rewrite Ev. eexists. reflexivity.
Qed.

Lemma simulated_values : forall mu sigma zs,
  map (fun z => vadd (Num mu) (vmul (Num sigma) (Num z))) zs
  = map Num (simulated mu sigma zs).
Proof.
  intros mu sigma zs. unfold simulated. rewrite map_map. reflexivity.
Qed.

Lemma numpy_select_le_Num : forall ys p,
  Numpy.select_le (map Num ys) (Num p)
  = map Num (filter (fun y => Qle_bool y p) ys).
Proof.
  intros ys p. unfold Numpy.select_le.
  induction ys as [| y t IH]; simpl.
  - reflexivity.
  - destruct (Qle_bool y p); simpl; rewrite IH; reflexivity.
Qed.

Lemma numpy_mean_Num : forall ys,
  ys <> [] -> Numpy.mean (map Num ys) = Num (sample_mean ys).
Proof.
  intros ys Hne. unfold Numpy.mean. rewrite finite_values_map_Num.
  destruct ys; [congruence | reflexivity].
Qed.

(** With at least two observations the moments are finite and both Monte
    Carlo functions are the historical formulas applied to the simulated
    sample. *)
Lemma monte_carlo_var_value : forall rs cl n s,
  (2 <= length rs)%nat -> (0 < n)%nat -> 0 <= cl -> cl <= 1 ->
  let ys := simulated (sample_mean (values rs)) (sample_std (values rs))
              (fst (standard_normal s n)) in
  exists p,
    RiskCalculator.monte_carlo_var (RiskCalculator.init rs cl) n s
    = Ok (Num (- p), snd (standard_normal s n))
    /\ p = Numpy.interpolate (Numpy.sort ys)
             (of_nat (length ys - 1) * ((1 - cl) * 100 / 100))
    /\ ys <> []
    /\ exists y, In y ys /\ y <= p.
Proof.
  intros rs cl n s Hlen Hn H0 H1 ys.
  assert (Hys : ys <> []).
  { unfold ys, simulated. pose proof (standard_normal_length s n) as Hl.
    destruct (fst (standard_normal s n)); [simpl in Hl; lia | discriminate]. }
  destruct (percentile_value ys (1 - cl) Hys) as (p & E & Hp & Hy); try lra.
  exists p. split; [| split; [exact Hp | split; assumption]].
  unfold RiskCalculator.monte_carlo_var, bind, NumpyRandom.normal.
  rewrite pandas_std_not_negative. simpl RiskCalculator.returns.
  rewrite pandas_mean_value, pandas_std_value.
  - fold ys in E. unfold ys in E.
    destruct (standard_normal s n) as [zs s'] eqn:Ez. simpl fst in *.
    rewrite simulated_values. unfold lift. simpl RiskCalculator.alpha.
    rewrite E. reflexivity.
  - rewrite values_length. exact Hlen.
  - intros Hnil. apply (f_equal (@length Q)) in Hnil.
    rewrite values_length in Hnil. simpl in Hnil. lia.
Qed.

Lemma monte_carlo_cvar_value : forall rs cl n s,
  (2 <= length rs)%nat -> (0 < n)%nat -> 0 <= cl -> cl <= 1 ->
  let ys := simulated (sample_mean (values rs)) (sample_std (values rs))
              (fst (standard_normal s n)) in
  exists p tail,
    p = Numpy.interpolate (Numpy.sort ys)
          (of_nat (length ys - 1) * ((1 - cl) * 100 / 100))
    /\ tail = filter (fun y => Qle_bool y p) ys
    /\ tail <> []
    /\ RiskCalculator.monte_carlo_cvar (RiskCalculator.init rs cl) n s
       = Ok (Num (- sample_mean tail), snd (standard_normal s n)).
Proof.
  intros rs cl n s Hlen Hn H0 H1 ys.
  assert (Hys : ys <> []).
  { unfold ys, simulated. pose proof (standard_normal_length s n) as Hl.
    destruct (fst (standard_normal s n)); [simpl in Hl; lia | discriminate]. }
  destruct (percentile_value ys (1 - cl) Hys) as (p & E & Hp & y & Hin & Hy);
    try lra.
  exists p, (filter (fun y => Qle_bool y p) ys).
  assert (Hmem : In y (filter (fun y => Qle_bool y p) ys)).
  { apply filter_In. split; [exact Hin | apply Qle_bool_iff; exact Hy]. }
  assert (Ht : filter (fun y => Qle_bool y p) ys <> []).
  { intros Hnil. rewrite Hnil in Hmem. exact Hmem. }
  split; [exact Hp |]. split; [reflexivity |]. split; [exact Ht |].
  unfold RiskCalculator.monte_carlo_cvar, bind, NumpyRandom.normal.
  rewrite pandas_std_not_negative. simpl RiskCalculator.returns.
  rewrite pandas_mean_value, pandas_std_value.
  - fold ys in E. unfold ys in E, Ht |- *.
    destruct (standard_normal s n) as [zs s'] eqn:Ez. simpl fst in *.
    rewrite simulated_values. unfold lift. simpl RiskCalculator.alpha.
    rewrite E. rewrite numpy_select_le_Num, numpy_mean_Num by exact Ht.
    reflexivity.
  - rewrite values_length. exact Hlen.
  - intros Hnil. apply (f_equal (@length Q)) in Hnil.
    rewrite values_length in Hnil. simpl in Hnil. lia.
Qed.

End MonteCarloFacts.

(** * CVaR against VaR *)




(** * Constant series *)

Section ConstantFacts.
Context {L : MathLib}.

Lemma simulated_const : forall xs c zs y,
  xs <> [] -> (forall x, In x xs -> x == c) ->
  In y (simulated (sample_mean xs) (sample_std xs) zs) -> y == c.
Proof.
  intros xs c zs y Hne Hc Hy. unfold simulated in Hy.
  apply in_map_iff in Hy. destruct Hy as (z & Ey & _). subst y.
  rewrite (sample_mean_const xs c Hne Hc), (sample_std_const xs c Hne Hc).
  ring.
Qed.

End ConstantFacts.

(** C9, as the code has it: on a constant series with at least two
    observations and a confidence level in (0,1), the parametric and Monte
    Carlo VaR and CVaR all return the finite value -mu (for Monte Carlo, with
    at least one simulation). *)
Theorem constant_series_metrics : forall (L : MathLib) (G : Rng) rs mu cl n s,
  (2 <= length rs)%nat -> (forall x, In x (values rs) -> x == mu) ->
  0 < cl -> cl < 1 -> (0 < n)%nat ->
  let calc := RiskCalculator.init rs cl in
  veq (RiskCalculator.parametric_var calc) (Num (- mu))
  /\ veq (RiskCalculator.parametric_cvar calc) (Num (- mu))
  /\ (exists v,
        result_of (RiskCalculator.monte_carlo_var calc n s) = Ok v
        /\ veq v (Num (- mu)))
  /\ (exists v,
        result_of (RiskCalculator.monte_carlo_cvar calc n s) = Ok v
        /\ veq v (Num (- mu))).
Proof.
  intros L G rs mu cl n s Hlen Hc H0 H1 Hn calc.
  assert (Hvl : (2 <= length (values rs))%nat)
    by (rewrite values_length; exact Hlen).
  assert (Hvn : values rs <> []).
  { destruct rs; [simpl in Hlen; lia | discriminate]. }
  pose proof (sample_mean_const (values rs) mu Hvn Hc) as Hm.
  pose proof (sample_std_const (values rs) mu Hvn Hc) as Hs.
  assert (Ea : Qeq_bool (1 - cl) 0 = false).
  { destruct (Qeq_bool (1 - cl) 0) eqn:E; [| reflexivity].
    apply Qeq_bool_iff in E. lra. }
  split; [| split; [| split]].
  - unfold calc, RiskCalculator.parametric_var. simpl.
    rewrite pandas_mean_value, pandas_std_value by assumption.
    simpl. rewrite Hm, Hs. ring.
  - unfold calc, RiskCalculator.parametric_cvar. simpl.
    rewrite pandas_mean_value, pandas_std_value by assumption.
    simpl. rewrite Ea. simpl. rewrite Hm, Hs. field. lra.
  - destruct (monte_carlo_var_value rs cl n s Hlen Hn)
      as (p & Ev & Hp & Hys & _); try lra.
    exists (Num (- p)). unfold calc. rewrite Ev. split; [reflexivity |].
    simpl. apply Qopp_comp. rewrite Hp.
    destruct (rank_bounds
                (length (simulated (sample_mean (values rs))
                           (sample_std (values rs))
                           (fst (standard_normal s n))) - 1) (1 - cl))
      as [Ha Hb]; try lra.
    apply interpolate_const.
    + intros y Hy. eapply simulated_const; [exact Hvn | exact Hc |].
      eapply Permutation_in; [apply sort_perm | exact Hy].
    + apply sort_nonempty. exact Hys.
    + exact Ha.
    + rewrite sort_length. exact Hb.
  - destruct (monte_carlo_cvar_value rs cl n s Hlen Hn)
      as (p & tail & _ & Et & Htn & Ec); try lra.
    exists (Num (- sample_mean tail)). unfold calc. rewrite Ec.
    split; [reflexivity |].
    simpl. apply Qopp_comp. apply sample_mean_const; [exact Htn |].
    intros y Hy. rewrite Et in Hy. apply filter_In in Hy.
    destruct Hy as [Hy _].
    eapply simulated_const; [exact Hvn | exact Hc | exact Hy].
Qed.

Lemma constant_series_metrics_witness :
  let calc := RiskCalculator.init flat3 (95 # 100) in
  veq (RiskCalculator.parametric_var calc) (Num (- (1 # 100)))
  /\ veq (RiskCalculator.parametric_cvar calc) (Num (- (1 # 100)))
  /\ (exists v,
        result_of (RiskCalculator.monte_carlo_var calc 5 0%nat) = Ok v
        /\ veq v (Num (- (1 # 100))))
  /\ (exists v,
        result_of (RiskCalculator.monte_carlo_cvar calc 5 0%nat) = Ok v
        /\ veq v (Num (- (1 # 100)))).
Proof.
  apply (constant_series_metrics ToyMath ToyRng flat3 (1 # 100) (95 # 100)
           5%nat 0%nat).
  - simpl; lia.
  - intros x Hx. simpl in Hx.
    destruct Hx as [E | [E | [E | []]]]; subst x; reflexivity.
  - reflexivity.
  - reflexivity.
  - lia.
Defined.

(** C9 as stated fails on a series of one observation: the sample standard
    deviation of a single value is NaN, and so are the parametric and the
    Monte Carlo VaR. *)
Lemma single_observation_is_nan :
  RiskCalculator.parametric_var
    (RiskCalculator.init (dated [ 1 # 100 ]) (95 # 100)) = NaN
  /\ result_of (RiskCalculator.monte_carlo_var
                  (RiskCalculator.init (dated [ 1 # 100 ]) (95 # 100))
                  5 0%nat) = Ok NaN.
Proof.
  split; reflexivity.
Qed.

(** * The ambient generator *)

(** C8, as the code has it: the two Monte Carlo functions read the ambient
    generator; a call returns a value fixed by its inputs and by the [n]
    variates the generator hands out, and leaves the generator advanced by
    those draws, so two invocations agree when the generator is put back in
    a state that yields the same draws before each. *)
Theorem monte_carlo_depends_on_draws :
  forall (L : MathLib) (G : Rng) self n (s1 s2 : rng_state),
  fst (standard_normal s1 n) = fst (standard_normal s2 n) ->
  result_of (RiskCalculator.monte_carlo_var self n s1)
    = result_of (RiskCalculator.monte_carlo_var self n s2)
  /\ result_of (RiskCalculator.monte_carlo_cvar self n s1)
     = result_of (RiskCalculator.monte_carlo_cvar self n s2)
  /\ (forall v s', RiskCalculator.monte_carlo_var self n s1 = Ok (v, s') ->
        s' = snd (standard_normal s1 n))
  /\ (forall v s', RiskCalculator.monte_carlo_cvar self n s1 = Ok (v, s') ->
        s' = snd (standard_normal s1 n)).
Proof.
  intros L G self n s1 s2 Hd.
  unfold RiskCalculator.monte_carlo_var, RiskCalculator.monte_carlo_cvar,
    bind, NumpyRandom.normal, lift, ret.
  destruct (standard_normal s1 n) as [z1 t1].
  destruct (standard_normal s2 n) as [z2 t2].
  simpl in Hd. subst z2. simpl snd.
  destruct (vltb (Pandas.std (values (RiskCalculator.returns self))) (Num 0)).
  - repeat split; try reflexivity; intros v s' H; discriminate H.
  - destruct (Numpy.percentile _ _) as [var | e].
    + repeat split; try reflexivity; intros v s' H; congruence.
    + repeat split; try reflexivity; intros v s' H; discriminate H.
Qed.

(** The toy generator repeats its table every ten draws: from states 0 and
    10 it hands out the same five variates. *)
Lemma monte_carlo_depends_on_draws_witness :
  let self := RiskCalculator.init sample3 (80 # 100) in
  result_of (RiskCalculator.monte_carlo_var self 5 0%nat)
    = result_of (RiskCalculator.monte_carlo_var self 5 10%nat)
  /\ result_of (RiskCalculator.monte_carlo_cvar self 5 0%nat)
     = result_of (RiskCalculator.monte_carlo_cvar self 5 10%nat).
Proof.
  intros self.
  assert (Hd : fst (@standard_normal ToyRng 0%nat 5)
               = fst (@standard_normal ToyRng 10%nat 5)) by reflexivity.
  pose proof (monte_carlo_depends_on_draws ToyMath ToyRng self 5%nat
                0%nat 10%nat Hd) as H.
  split; [exact (proj1 H) | exact (proj1 (proj2 H))].
Defined.

(** C8 as stated fails: no seed or generator is passed in, and two
    successive invocations with the same inputs return different values. *)
Lemma monte_carlo_repeat_differs :
  let self := RiskCalculator.init sample3 (80 # 100) in
  (exists a b s,
     (v1 <- RiskCalculator.monte_carlo_var self 5 ;;
      v2 <- RiskCalculator.monte_carlo_var self 5 ;;
      ret (v1, v2)) 0%nat = Ok ((Num a, Num b), s)
     /\ a == 56 # 10000 /\ b == - (42 # 10000))
  /\ (exists a b s,
        (c1 <- RiskCalculator.monte_carlo_cvar self 5 ;;
         c2 <- RiskCalculator.monte_carlo_cvar self 5 ;;
         ret (c1, c2)) 0%nat = Ok ((Num a, Num b), s)
        /\ a == 12 # 1000 /\ b == - (1 # 1000)).
Proof.
  vm_compute.
  split; do 3 eexists; (split; [reflexivity |]); split; reflexivity.
Qed.

(** * Portfolio construction *)

(** C6, as the code has it: construction checks the sum of the supplied
    weights only, with numpy.isclose (|sum - 1| <= 1e-08 + 1e-05), and fails
    with AssertionError when the check fails; the number of weights is not
    compared with the number of assets.  Without weights it always succeeds,
    with one weight 1/n per asset. *)
Theorem init_checks_weight_sum : forall df w,
  (Qabs (Numpy.Qsum w - 1) <= Numpy.atol + Numpy.rtol ->
     exists p, Portfolio.init df (Some w) = Ok p
               /\ Portfolio.weights p = w
               /\ Portfolio.n_assets p = length (Portfolio.columns df))
  /\ (~ Qabs (Numpy.Qsum w - 1) <= Numpy.atol + Numpy.rtol ->
        Portfolio.init df (Some w) = Raise AssertionError)
  /\ (exists p, Portfolio.init df None = Ok p
                /\ length (Portfolio.weights p) = Portfolio.n_assets p
                /\ ((0 < Portfolio.n_assets p)%nat ->
                    Numpy.Qsum (Portfolio.weights p) == 1)).
Proof.
  intros df w.
  assert (Hiff : Numpy.isclose (Numpy.Qsum w) 1 = true
                 <-> Qabs (Numpy.Qsum w - 1) <= Numpy.atol + Numpy.rtol).
  { unfold Numpy.isclose. rewrite Qle_bool_iff.
    change (Qabs 1) with 1.
    assert (E : Numpy.atol + Numpy.rtol * 1 == Numpy.atol + Numpy.rtol)
      by ring.
    rewrite E. reflexivity. }
  split; [| split].
  - intros Hc. apply Hiff in Hc. unfold Portfolio.init. rewrite Hc.
    eexists. repeat split.
  - intros Hc. unfold Portfolio.init.
    destruct (Numpy.isclose (Numpy.Qsum w) 1) eqn:E; [| reflexivity].
    exfalso. apply Hc, Hiff. reflexivity.
  - unfold Portfolio.init. eexists. split; [reflexivity |]. simpl. split.
    + apply repeat_length.
    + intros Hn.
      rewrite (Qsum_const _ (1 / of_nat (length (Portfolio.columns df)))).
      * rewrite repeat_length. field.
        pose proof (of_nat_pos _ Hn). lra.
      * intros x Hx. apply repeat_spec in Hx. rewrite Hx. reflexivity.
Qed.

Lemma init_checks_weight_sum_witness :
  (exists p, Portfolio.init two_assets (Some [1 # 2; 1 # 2]) = Ok p
             /\ Portfolio.weights p = [1 # 2; 1 # 2]
             /\ Portfolio.n_assets p = 2%nat)
  /\ Portfolio.init two_assets (Some [1 # 2; 1 # 4]) = Raise AssertionError.
Proof.
  split.
  - apply (proj1 (init_checks_weight_sum two_assets [1 # 2; 1 # 2])).
    vm_compute. discriminate.
  - apply (proj1 (proj2 (init_checks_weight_sum two_assets [1 # 2; 1 # 4]))).
    vm_compute. intros H. apply H. reflexivity.
Defined.

(** C6 as stated fails: one weight for two assets is accepted when it sums
    to 1 (the mismatch only surfaces later, in portfolio_returns), and so is
    a sum that is off by 1e-06, far outside 1e-09. *)
Lemma init_accepts_wrong_count :
  (exists p, Portfolio.init two_assets (Some [1]) = Ok p
             /\ length (Portfolio.weights p) <> Portfolio.n_assets p
             /\ Portfolio.portfolio_returns p = Raise ValueError)
  /\ (exists p,
        Portfolio.init two_assets (Some [1 # 2; 500001 # 1000000]) = Ok p
        /\ ~ Qabs (Numpy.Qsum (Portfolio.weights p) - 1) <= 1 # 1000000000).
Proof.
  split.
  - eexists. split; [reflexivity |]. split; [discriminate | reflexivity].
  - eexists. split; [reflexivity |]. vm_compute. intros H. apply H. reflexivity.
Qed.

(** * Kupiec test *)

Section KupiecFacts.

Lemma same_index_length : forall a b,
  VaRBacktester.same_index a b = true -> length a = length b.
Proof.
  induction a as [| x a IH]; intros [| y b] H; simpl in *;
    try discriminate; try reflexivity.
  apply andb_true_iff in H. destruct H as [_ H].
  f_equal. apply IH. exact H.
Qed.

Lemma count_true_map : forall {A} (f : A -> bool) (g : A -> Z) l,
  VaRBacktester.count_true (values (map (fun a => (g a, f a)) l))
  = length (filter f l).
Proof.
  intros A f g l. unfold VaRBacktester.count_true, values.
  induction l as [| a l IH]; simpl.
  - reflexivity.
  - destruct (f a); simpl; rewrite IH; reflexivity.
Qed.

Lemma get_violations_aligned : forall self,
  VaRBacktester.same_index (index (VaRBacktester.returns self))
    (index (VaRBacktester.var_estimates self)) = true ->
  exists violations,
    VaRBacktester.get_violations self = Ok violations
    /\ length violations = length (VaRBacktester.returns self)
    /\ VaRBacktester.count_true (values violations)
       = violation_count (VaRBacktester.returns self)
           (VaRBacktester.var_estimates self).
Proof.
  intros self H. unfold VaRBacktester.get_violations. rewrite H.
  eexists. split; [reflexivity |]. split.
  - rewrite length_map, length_combine.
    apply same_index_length in H. unfold index in H.
    rewrite !length_map in H. lia.
  - unfold violation_count.
    rewrite <- (count_true_map
                  (fun '((_, r), (_, v)) => vgtb (Num (- r)) v)
                  (fun p : (Z * Q) * (Z * val) => fst (fst p))).
    f_equal. f_equal. apply map_ext. intros [[d r] [d' v]]. reflexivity.
Qed.

End KupiecFacts.

(** C3: with x the number of violations and n the number of observations,
    kupiec_test returns, for 0 < x < n, the likelihood ratio
    -2 [x ln a + (n-x) ln(1-a) - x ln(x/n) - (n-x) ln(1 - x/n)], the p-value
    1 - chi2_cdf(LR) and reject_null = (p-value < 0.05); for x = 0 or x = n
    it returns LR = 0, p-value = 1 and reject_null = False. *)
Theorem kupiec_test_result : forall (L : MathLib) self,
  VaRBacktester.same_index (index (VaRBacktester.returns self))
    (index (VaRBacktester.var_estimates self)) = true ->
  let x := violation_count (VaRBacktester.returns self)
             (VaRBacktester.var_estimates self) in
  let n := length (VaRBacktester.returns self) in
  let a := VaRBacktester.alpha self in
  exists r,
    VaRBacktester.kupiec_test self = Ok r
    /\ VaRBacktester.n_violations r = x
    /\ VaRBacktester.n_observations r = n
    /\ VaRBacktester.expected_rate r = a
    /\ ((0 < x < n)%nat ->
        VaRBacktester.violation_rate r = Num (of_nat x / of_nat n)
        /\ VaRBacktester.lr_statistic r = Num (kupiec_lr x n a)
        /\ VaRBacktester.p_value r = Num (1 - chi2_cdf (kupiec_lr x n a))
        /\ VaRBacktester.reject_null r
           = Qltb (1 - chi2_cdf (kupiec_lr x n a)) (5 # 100))
    /\ ((x = 0 \/ x = n)%nat ->
        VaRBacktester.lr_statistic r = Num 0
        /\ VaRBacktester.p_value r = Num 1
        /\ VaRBacktester.reject_null r = false).
Proof.
  intros L self H x n a.
  destruct (get_violations_aligned self H) as (viol & Ev & Hlen & Hcnt).
  fold x in Hcnt. fold n in Hlen.
  unfold VaRBacktester.kupiec_test. rewrite Ev. unfold res_bind.
  rewrite Hcnt, Hlen. fold a.
  destruct (Nat.eqb x 0 || Nat.eqb x n) eqn:Edeg.
  - eexists. split; [reflexivity |]. simpl.
    do 3 (split; [reflexivity |]). split.
    + intros [Hx0 Hxn]. exfalso.
      apply orb_true_iff in Edeg. destruct Edeg as [E | E];
        apply Nat.eqb_eq in E; lia.
    + intros _. repeat split.
  - apply orb_false_iff in Edeg. destruct Edeg as [E0 En].
    apply Nat.eqb_neq in E0. apply Nat.eqb_neq in En.
    assert (Hn : Qeq_bool (of_nat n) 0 = false).
    { destruct (Qeq_bool (of_nat n) 0) eqn:E; [| reflexivity].
      apply Qeq_bool_iff in E.
      assert (Hxn : (x <= n)%nat).
      { unfold x, n, violation_count.
        eapply Nat.le_trans; [apply filter_length_le |].
        rewrite length_combine. apply Nat.le_min_l. }
      assert (Hpos : 0 < of_nat n) by (apply of_nat_pos; lia).
      lra. }
    eexists. split; [reflexivity |]. simpl.
    do 3 (split; [reflexivity |]). split.
    + intros _. unfold vdiv. rewrite Hn. repeat split.
    + intros [Hx | Hx]; exfalso; lia.
Qed.

(** One violation in five observations: the loss 0.05 exceeds the estimate
    0.034. *)
Lemma kupiec_test_result_witness :
  let self := VaRBacktester.init sample5 (flat_estimate sample5 (34 # 1000))
                (95 # 100) in
  exists r,
    VaRBacktester.kupiec_test self = Ok r
    /\ VaRBacktester.n_violations r = 1%nat
    /\ VaRBacktester.n_observations r = 5%nat
    /\ VaRBacktester.lr_statistic r = Num (kupiec_lr 1 5 (1 - (95 # 100)))
    /\ VaRBacktester.p_value r
       = Num (1 - chi2_cdf (kupiec_lr 1 5 (1 - (95 # 100)))).
Proof.
  intros self.
  assert (Hidx : VaRBacktester.same_index
                   (index (VaRBacktester.returns self))
                   (index (VaRBacktester.var_estimates self)) = true)
    by reflexivity.
  destruct (kupiec_test_result ToyMath self Hidx)
    as (r & E & Hx & Hn & _ & Hmid & _).
  assert (Hrange : (0 < violation_count (VaRBacktester.returns self)
                          (VaRBacktester.var_estimates self)
                    < length (VaRBacktester.returns self))%nat)
    by (vm_compute; lia).
  destruct (Hmid Hrange) as (_ & Hlr & Hp & _).
  exists r. repeat split; assumption.
Defined.

(** * Rolling backtest *)

Section RollingFacts.
Context {L : MathLib} {G : Rng}.

Lemma slice_length : forall {A} (l : list A) lo hi,
  (lo <= hi)%nat -> (hi <= length l)%nat -> length (slice lo hi l) = (hi - lo)%nat.
Proof.
  intros A l lo hi H1 H2. unfold slice.
  rewrite length_firstn, length_skipn. lia.
Qed.

Lemma slice_nth_error : forall {A} (l : list A) lo hi j,
  (j < hi - lo)%nat ->
  nth_error (slice lo hi l) j = nth_error l (lo + j).
Proof.
  intros A l lo hi j Hj. unfold slice.
  rewrite nth_error_firstn.
  assert (E : Nat.ltb j (hi - lo) = true) by (apply Nat.ltb_lt; exact Hj).
  rewrite E. apply nth_error_skipn.
Qed.

Lemma iloc_values : forall {A} (s : Series A) i,
  (i < length s)%nat ->
  exists r, iloc s i = Ok r /\ nth_error (values s) i = Some r.
Proof.
  intros A s i Hi. unfold iloc, values. rewrite nth_error_map.
  destruct (nth_error s i) as [[d r] |] eqn:E.
  - exists r. split; reflexivity.
  - apply nth_error_None in E. lia.
Qed.

Lemma default_n_simulations_pos : (0 < VaRBacktester.default_n_simulations)%nat.
Proof.
  unfold VaRBacktester.default_n_simulations. lia.
Qed.

(** Decide the comparisons of [method] against the three literals. *)
Ltac eval_method :=
  repeat match goal with
         | |- context [String.eqb ?a ?b] =>
             let r := eval vm_compute in (String.eqb a b) in
             change (String.eqb a b) with r
         end;
  cbv iota.

(** A known method binds [var] afresh, whatever it held. *)
Lemma select_var_known : forall m calc v0 s,
  known_method m ->
  0 <= RiskCalculator.alpha calc -> RiskCalculator.alpha calc <= 1 ->
  (m = "historical"%string -> RiskCalculator.returns calc <> []) ->
  exists v s',
    VaRBacktester.select_var m calc v0 s = Ok (Some v, s')
    /\ VaRBacktester.select_var m calc None s = Ok (Some v, s').
Proof.
  intros m calc v0 s Hm H0 H1 Hne.
  destruct Hm as [E | [E | E]]; subst m; unfold VaRBacktester.select_var;
    eval_method.
  - assert (Hv : values (RiskCalculator.returns calc) <> []).
    { specialize (Hne eq_refl).
      destruct (RiskCalculator.returns calc); [congruence | discriminate]. }
    destruct (percentile_value (values (RiskCalculator.returns calc))
                (RiskCalculator.alpha calc) Hv H0 H1) as (p & E & _).
    unfold bind, lift, ret, RiskCalculator.historical_var.
    rewrite E. simpl. do 2 eexists. split; reflexivity.
  - unfold ret. do 2 eexists. split; reflexivity.
  - destruct (monte_carlo_var_total calc VaRBacktester.default_n_simulations s
                default_n_simulations_pos H0 H1) as (v & E).
    unfold bind. rewrite E. unfold ret. do 2 eexists. split; reflexivity.
Qed.

(** Any other method leaves [var] as it was and draws nothing. *)
Lemma select_var_unknown : forall m calc v0 s,
  ~ known_method m ->
  VaRBacktester.select_var m calc v0 s = Ok (v0, s).
Proof.
  intros m calc v0 s Hm. unfold VaRBacktester.select_var, known_method in *.
  destruct (String.eqb m "historical") eqn:E1.
  { apply String.eqb_eq in E1. tauto. }
  destruct (String.eqb m "parametric") eqn:E2.
  { apply String.eqb_eq in E2. tauto. }
  destruct (String.eqb m "monte_carlo") eqn:E3.
  { apply String.eqb_eq in E3. tauto. }
  reflexivity.
Qed.

(** What the chain binds [var] to, method by method. *)
Lemma select_var_inv : forall m calc v0 s v s',
  VaRBacktester.select_var m calc v0 s = Ok (Some v, s') ->
  (m = "historical"%string ->
     RiskCalculator.historical_var calc = Ok v /\ s' = s)
  /\ (m = "parametric"%string ->
        v = RiskCalculator.parametric_var calc /\ s' = s)
  /\ (m = "monte_carlo"%string ->
        RiskCalculator.monte_carlo_var calc (Z.to_nat 10000) s = Ok (v, s')).
Proof.
  intros m calc v0 s v s' H. split; [| split]; intros E; subst m;
    unfold VaRBacktester.select_var in H; revert H; eval_method.
  - unfold bind, lift, ret.
    destruct (RiskCalculator.historical_var calc) as [hv | e]; intros H;
      [| discriminate H].
    injection H as Hv Hs. subst. split; reflexivity.
  - unfold ret. intros H. injection H as Hv Hs. subst. split; reflexivity.
  - unfold bind, ret.
    change VaRBacktester.default_n_simulations with (Z.to_nat 10000).
    destruct (RiskCalculator.monte_carlo_var calc (Z.to_nat 10000) s)
      as [[mv s1] | e]; intros H; [| discriminate H].
    injection H as Hv Hs. subst. reflexivity.
Qed.

End RollingFacts.

Section RollingLoop.
Context {L : MathLib} {G : Rng}.
Variable self : VaRBacktester.t.
Variable W : nat.
Variable m : string.

Hypothesis Hknown : known_method m.
Hypothesis Hcl0 : 0 < VaRBacktester.confidence_level self.
Hypothesis Hcl1 : VaRBacktester.confidence_level self < 1.
Hypothesis Hwin : m = "historical"%string -> (0 < W)%nat.

Lemma loop_body_known : forall st i s,
  (W <= i)%nat -> (i < length (VaRBacktester.returns self))%nat ->
  exists v r s',
    VaRBacktester.select_var m (calc_at self W i) None s = Ok (Some v, s')
    /\ nth_error (values (VaRBacktester.returns self)) i = Some r
    /\ VaRBacktester.loop_body self W m st i s
       = Ok ({| VaRBacktester.var := Some v;
                VaRBacktester.var_list := VaRBacktester.var_list st ++ [v];
                VaRBacktester.actual_list :=
                  VaRBacktester.actual_list st ++ [r] |}, s').
Proof.
  intros st i s HWi Hi.
  destruct (select_var_known m (calc_at self W i) (VaRBacktester.var st) s Hknown)
    as (v & s' & E & E0).
  - simpl. lra.
  - simpl. lra.
  - intros Eh. specialize (Hwin Eh). simpl.
    intros Hnil. apply (f_equal (@length (Z * Q))) in Hnil.
    rewrite slice_length in Hnil by lia. simpl in Hnil. lia.
  - destruct (iloc_values (VaRBacktester.returns self) i Hi) as (r & Er & En).
    exists v, r, s'. split; [exact E0 |]. split; [exact En |].
    unfold VaRBacktester.loop_body, bind. fold (calc_at self W i).
    rewrite E. unfold lift. rewrite Er. reflexivity.
Qed.

(** The loop over [seq start cnt]: what it appends, and the generator states
    it passes through. *)
Lemma for_each_known : forall cnt start st s,
  (W <= start)%nat ->
  (start + cnt <= length (VaRBacktester.returns self))%nat ->
  exists vs acts ss st' s_end,
    VaRBacktester.for_each (VaRBacktester.loop_body self W m)
      (seq start cnt) st s = Ok (st', s_end)
    /\ VaRBacktester.var_list st' = VaRBacktester.var_list st ++ vs
    /\ VaRBacktester.actual_list st' = VaRBacktester.actual_list st ++ acts
    /\ length vs = cnt /\ length acts = cnt /\ length ss = S cnt
    /\ nth_error ss 0 = Some s /\ nth_error ss cnt = Some s_end
    /\ forall j, (j < cnt)%nat ->
         nth_error acts j
         = nth_error (values (VaRBacktester.returns self)) (start + j)
         /\ exists v sj sj',
              nth_error vs j = Some v
              /\ nth_error ss j = Some sj /\ nth_error ss (S j) = Some sj'
              /\ VaRBacktester.select_var m (calc_at self W (start + j)) None sj
                 = Ok (Some v, sj').
Proof.
  induction cnt as [| cnt IH]; intros start st s HW Hlen.
  - exists [], [], [s], st, s. simpl.
    rewrite !app_nil_r. repeat split; try reflexivity.
    all: intros; lia.
  - destruct (loop_body_known st start s HW) as (v & r & s1 & Ev & Er & Eb);
      [lia |].
    set (st1 := {| VaRBacktester.var := Some v;
                   VaRBacktester.var_list := VaRBacktester.var_list st ++ [v];
                   VaRBacktester.actual_list :=
                     VaRBacktester.actual_list st ++ [r] |}) in *.
    destruct (IH (S start) st1 s1) as
      (vs & acts & ss & st' & s_end & Ef & Hv & Ha & Lv & La & Ls & S0 & Sn & Hj);
      [lia | lia |].
    exists (v :: vs), (r :: acts), (s :: ss), st', s_end.
    split.
    { simpl seq. simpl VaRBacktester.for_each. unfold bind at 1.
      rewrite Eb. exact Ef. }
    split. { rewrite Hv. simpl. rewrite <- app_assoc. reflexivity. }
    split. { rewrite Ha. simpl. rewrite <- app_assoc. reflexivity. }
    split. { simpl. lia. }
    split. { simpl. lia. }
    split. { simpl. lia. }
    split. { reflexivity. }
    split. { simpl. exact Sn. }
    intros [| j] Hjlt.
    + rewrite Nat.add_0_r. split; [simpl; symmetry; exact Er |].
      exists v, s, s1. repeat split; try reflexivity.
      * simpl. exact S0.
      * exact Ev.
    + destruct (Hj j) as (Hacts & v' & sj & sj' & Hvj & Hsj & Hsj' & Esel);
        [lia |].
      replace (start + S j)%nat with (S start + j)%nat by lia.
      split; [simpl; exact Hacts |].
      exists v', sj, sj'. repeat split; assumption.
Qed.

End RollingLoop.

Section SeriesFacts.

Lemma values_combine : forall {A} (idx : list Z) (data : list A),
  length data = length idx -> values (combine idx data) = data.
Proof.
  intros A idx. unfold values.
  induction idx as [| d idx IH]; intros [| a data] H; simpl in *;
    try discriminate; try reflexivity.
  f_equal. apply IH. lia.
Qed.

Lemma index_combine : forall {A} (idx : list Z) (data : list A),
  length data = length idx -> index (combine idx data) = idx.
Proof.
  intros A idx. unfold index.
  induction idx as [| d idx IH]; intros [| a data] H; simpl in *;
    try discriminate; try reflexivity.
  f_equal. apply IH. lia.
Qed.

Lemma mk_series_ok : forall {A} (data : list A) (idx : list Z),
  length data = length idx -> mk_series data idx = Ok (combine idx data).
Proof.
  intros A data idx H. unfold mk_series.
  rewrite H, Nat.eqb_refl. reflexivity.
Qed.

End SeriesFacts.

(** C2, as the code has it: for a window W < L (at least one observation
    wide for the historical method), a confidence level in (0,1) and each of
    the three methods, rolling_var_backtest returns two series of length
    L - W labelled by the dates from position W on.  The k-th estimate is
    computed from exactly the W observations at positions k .. W+k-1: it is
    what historical_var, parametric_var or monte_carlo_var (with its default
    10000 simulations, drawing from the generator where the previous pass
    left it) returns on the calculator built from that window.  The k-th
    actual return is the observation at position W+k. *)
Theorem rolling_var_backtest_windows :
  forall (L : MathLib) (G : Rng) self W m (s : rng_state),
  let rs := VaRBacktester.returns self in
  let cl := VaRBacktester.confidence_level self in
  let n := length rs in
  (W < n)%nat -> 0 < cl -> cl < 1 ->
  known_method m -> (m = "historical"%string -> (0 < W)%nat) ->
  exists ve ar s_end ss,
    VaRBacktester.rolling_var_backtest self W m s = Ok ((ve, ar), s_end)
    /\ length ve = (n - W)%nat /\ length ar = (n - W)%nat
    /\ index ve = skipn W (index rs) /\ index ar = skipn W (index rs)
    /\ length ss = S (n - W)
    /\ nth_error ss 0 = Some s /\ nth_error ss (n - W) = Some s_end
    /\ forall k, (k < n - W)%nat ->
         let window := slice k (W + k) rs in
         let calc := RiskCalculator.init window cl in
         length window = W
         /\ (forall j, (j < W)%nat ->
               nth_error window j = nth_error rs (k + j))
         /\ nth_error (values ar) k = nth_error (values rs) (W + k)
         /\ exists v sk sk',
              nth_error (values ve) k = Some v
              /\ nth_error ss k = Some sk /\ nth_error ss (S k) = Some sk'
              /\ (m = "historical"%string ->
                    RiskCalculator.historical_var calc = Ok v /\ sk' = sk)
              /\ (m = "parametric"%string ->
                    v = RiskCalculator.parametric_var calc /\ sk' = sk)
              /\ (m = "monte_carlo"%string ->
                    RiskCalculator.monte_carlo_var calc (Z.to_nat 10000) sk
                    = Ok (v, sk')).
Proof.
  intros L G self W m s rs cl n HW H0 H1 Hm Hwin.
  destruct (for_each_known self W m Hm H0 H1 Hwin (n - W) W
              {| VaRBacktester.var := None;
                 VaRBacktester.var_list := [];
                 VaRBacktester.actual_list := [] |} s)
    as (vs & acts & ss & st' & s_end & Ef & Hv & Ha & Lv & La & Ls & S0 & Sn & Hj).
  { lia. }
  { fold rs. fold n. lia. }
  simpl in Hv, Ha.
  assert (Lidx : length (skipn W (index rs)) = (n - W)%nat).
  { rewrite length_skipn. unfold index. rewrite length_map. reflexivity. }
  exists (combine (skipn W (index rs)) vs),
         (combine (skipn W (index rs)) acts), s_end, ss.
  split.
  { unfold VaRBacktester.rolling_var_backtest. fold rs. fold n.
    unfold bind at 1. rewrite Ef. unfold bind, lift, ret.
    rewrite Hv, Ha.
    rewrite !mk_series_ok by congruence. reflexivity. }
  split. { rewrite length_combine. lia. }
  split. { rewrite length_combine. lia. }
  split. { apply index_combine. congruence. }
  split. { apply index_combine. congruence. }
  split. { exact Ls. }
  split. { exact S0. }
  split. { exact Sn. }
  intros k Hk window calc.
  destruct (Hj k Hk) as (Hacts & v & sk & sk' & Hvk & Hsk & Hsk' & Esel).
  split. { unfold window. rewrite slice_length; fold n; lia. }
  split. { intros j Hjw. unfold window. apply slice_nth_error. lia. }
  split. { rewrite values_combine by congruence. exact Hacts. }
  exists v, sk, sk'.
  split. { rewrite values_combine by congruence. exact Hvk. }
  split. { exact Hsk. }
  split. { exact Hsk'. }
  unfold calc_at in Esel.
  replace (W + k - W)%nat with k in Esel by lia.
  exact (select_var_inv m calc None sk v sk' Esel).
Qed.

(** The first estimate of a two-day historical backtest is the historical
    VaR of the first two observations. *)
Lemma rolling_var_backtest_windows_witness :
  let self := VaRBacktester.init sample5 (flat_estimate sample5 (34 # 1000))
                (80 # 100) in
  exists ve ar s_end v,
    VaRBacktester.rolling_var_backtest self 2 "historical" 0%nat
      = Ok ((ve, ar), s_end)
    /\ length ve = 3%nat /\ length ar = 3%nat
    /\ nth_error (values ar) 0 = nth_error (values sample5) 2
    /\ nth_error (values ve) 0 = Some v
    /\ RiskCalculator.historical_var
         (RiskCalculator.init (slice 0 2 sample5) (80 # 100)) = Ok v.
Proof.
  intros self.
  assert (HW : (2 < length (VaRBacktester.returns self))%nat)
    by (simpl; lia).
  assert (H0 : 0 < VaRBacktester.confidence_level self) by reflexivity.
  assert (H1 : VaRBacktester.confidence_level self < 1) by reflexivity.
  assert (Hm : known_method "historical") by (left; reflexivity).
  assert (Hwin : "historical"%string = "historical"%string -> (0 < 2)%nat)
    by (intros _; lia).
  destruct (rolling_var_backtest_windows ToyMath ToyRng self 2%nat
              "historical"%string 0%nat HW H0 H1 Hm Hwin)
    as (ve & ar & s_end & ss & E & Lve & Lar & _ & _ & _ & _ & _ & Hk).
  assert (Hk0 : (0 < length (VaRBacktester.returns self) - 2)%nat)
    by (simpl; lia).
  destruct (Hk 0%nat Hk0)
    as (_ & _ & Hact & v & sk & sk' & Hv & _ & _ & Hhist & _).
  destruct (Hhist eq_refl) as [Ehv _].
  exists ve, ar, s_end, v.
  split; [exact E |]. split; [exact Lve |]. split; [exact Lar |].
  split; [exact Hact |]. split; [exact Hv | exact Ehv].
Defined.

(** C2 as stated fails for a window of zero observations with the
    historical method: the first pass hands np.percentile an empty sample
    and the call raises IndexError. *)
Lemma rolling_zero_window_historical :
  VaRBacktester.rolling_var_backtest
    (VaRBacktester.init sample5 (flat_estimate sample5 (34 # 1000)) (80 # 100))
    0 "historical" 0%nat = Raise IndexError.
Proof.
  reflexivity.
Qed.

(** C10: with a method outside the three names and a window W < L, the
    first pass reaches [var_estimates.append(var)] with [var] unbound and the
    call fails with UnboundLocalError; a pass that starts with [var] bound
    appends that same value again and draws nothing. *)
Theorem rolling_var_backtest_unknown_method :
  forall (L : MathLib) (G : Rng) self W m (s : rng_state),
  ~ known_method m ->
  (W < length (VaRBacktester.returns self))%nat ->
  VaRBacktester.rolling_var_backtest self W m s = Raise UnboundLocalError
  /\ forall st v i r,
       VaRBacktester.var st = Some v ->
       iloc (VaRBacktester.returns self) i = Ok r ->
       VaRBacktester.loop_body self W m st i s
       = Ok ({| VaRBacktester.var := Some v;
                VaRBacktester.var_list := VaRBacktester.var_list st ++ [v];
                VaRBacktester.actual_list :=
                  VaRBacktester.actual_list st ++ [r] |}, s).
Proof.
  intros L G self W m s Hm HW. split.
  - unfold VaRBacktester.rolling_var_backtest.
    destruct (length (VaRBacktester.returns self) - W)%nat as [| c] eqn:Ec;
      [lia |].
    simpl seq. simpl VaRBacktester.for_each.
    unfold bind, VaRBacktester.loop_body, bind.
    rewrite select_var_unknown by exact Hm. reflexivity.
  - intros st v i r Hv Hr.
    unfold VaRBacktester.loop_body, bind.
    rewrite select_var_unknown by exact Hm.
    rewrite Hv. unfold lift. rewrite Hr. reflexivity.
Qed.

(** When the window is not shorter than the series the loop body never
    runs, and the call returns two empty series whatever [method] is. *)
Lemma rolling_var_backtest_no_pass :
  forall (L : MathLib) (G : Rng) self W m (s : rng_state),
  (length (VaRBacktester.returns self) <= W)%nat ->
  VaRBacktester.rolling_var_backtest self W m s = Ok (([], []), s).
Proof.
  intros L G self W m s HW. unfold VaRBacktester.rolling_var_backtest.
  replace (length (VaRBacktester.returns self) - W)%nat with 0%nat by lia.
  simpl seq. simpl VaRBacktester.for_each. unfold bind, ret, lift. simpl.
  rewrite skipn_all2 by (unfold index; rewrite length_map; exact HW).
  reflexivity.
Qed.

Lemma rolling_var_backtest_unknown_method_witness :
  VaRBacktester.rolling_var_backtest
    (VaRBacktester.init sample5 (flat_estimate sample5 (34 # 1000)) (80 # 100))
    2 "garch" 0%nat = Raise UnboundLocalError.
Proof.
  apply (rolling_var_backtest_unknown_method ToyMath ToyRng
           (VaRBacktester.init sample5 (flat_estimate sample5 (34 # 1000))
              (80 # 100)) 2%nat "garch"%string 0%nat).
  - intros [H | [H | H]]; discriminate H.
  - simpl; lia.
Defined.

(** * Further properties of the risk calculator *)

Section PercentileOrder.

Lemma interpolate_between : forall s h,
  StronglySorted Qle s -> s <> [] -> 0 <= h -> h <= of_nat (length s - 1) ->
  let k := Z.to_nat (Qfloor h) in
  nth k s 0 <= Numpy.interpolate s h
  /\ Numpy.interpolate s h <= nth (Nat.min (S k) (length s - 1)) s 0.
Proof.
  intros s h Hs Hne H0 Hn k.
  destruct (interpolate_rank s h Hne H0 Hn) as (Hk & Hlo & Hhi & E).
  fold k in Hk, Hlo, Hhi, E. rewrite E.
  assert (B : nth k s 0 <= nth (Nat.min (S k) (length s - 1)) s 0)
    by (apply sorted_nth_le; auto; lia).
  set (lo := nth k s 0) in *.
  set (hi := nth (Nat.min (S k) (length s - 1)) s 0) in *.
  set (g := h - of_nat k).
  assert (G0 : 0 <= g) by (unfold g; lra).
  assert (G1 : g <= 1) by (unfold g; lra).
  assert (C : 0 <= (hi - lo) * g) by (apply Qmult_le_0_compat; lra).
  assert (D : 0 <= (hi - lo) * (1 - g)) by (apply Qmult_le_0_compat; lra).
  split; [lra |].
  assert (Ee : (hi - lo) * (1 - g) == hi - lo - (hi - lo) * g) by ring.
  lra.
Qed.

(** The interpolated value grows with the fractional rank. *)
Lemma interpolate_monotone : forall s h1 h2,
  StronglySorted Qle s -> s <> [] ->
  0 <= h1 -> h1 <= h2 -> h2 <= of_nat (length s - 1) ->
  Numpy.interpolate s h1 <= Numpy.interpolate s h2.
Proof.
  intros s h1 h2 Hs Hne H0 H12 Hn.
  assert (Hn1 : h1 <= of_nat (length s - 1)) by lra.
  assert (H02 : 0 <= h2) by lra.
  destruct (interpolate_rank s h1 Hne H0 Hn1) as (Hk1 & Hlo1 & Hhi1 & E1).
  destruct (interpolate_rank s h2 Hne H02 Hn) as (Hk2 & Hlo2 & Hhi2 & E2).
  destruct (interpolate_between s h1 Hs Hne H0 Hn1) as [_ U1].
  destruct (interpolate_between s h2 Hs Hne H02 Hn) as [L2 _].
  assert (Hf : (Qfloor h1 <= Qfloor h2)%Z) by (apply Qfloor_resp_le; exact H12).
  set (k1 := Z.to_nat (Qfloor h1)) in *.
  set (k2 := Z.to_nat (Qfloor h2)) in *.
  assert (Hk : (k1 <= k2)%nat) by (unfold k1, k2; lia).
  destruct (Nat.eq_dec k1 k2) as [Ek | Nk].
  - rewrite E1, E2. rewrite <- Ek in *.
    assert (B : nth k1 s 0 <= nth (Nat.min (S k1) (length s - 1)) s 0)
      by (apply sorted_nth_le; auto; lia).
    set (lo := nth k1 s 0) in *.
    set (hi := nth (Nat.min (S k1) (length s - 1)) s 0) in *.
    assert (C : 0 <= (hi - lo) * (h2 - h1)) by (apply Qmult_le_0_compat; lra).
    assert (Ee : (hi - lo) * (h2 - of_nat k1)
                 == (hi - lo) * (h1 - of_nat k1) + (hi - lo) * (h2 - h1))
      by ring.
    lra.
  - assert (M : nth (Nat.min (S k1) (length s - 1)) s 0 <= nth k2 s 0)
      by (apply sorted_nth_le; auto; lia).
    lra.
Qed.

End PercentileOrder.

(** X1: the historical VaR lies between the negated largest and the negated
    smallest observation. *)
Theorem historical_var_within_range : forall rs cl a b,
  rs <> [] -> 0 <= cl -> cl <= 1 ->
  (forall x, In x (values rs) -> a <= x /\ x <= b) ->
  exists v,
    RiskCalculator.historical_var (RiskCalculator.init rs cl) = Ok (Num v)
    /\ - b <= v /\ v <= - a.
Proof.
  intros rs cl a b Hne H0 H1 Hab.
  destruct (historical_var_value rs cl Hne H0 H1) as (p & E & Hp & _).
  exists (- p). split; [exact E |].
  assert (Hv : values rs <> []).
  { destruct rs; [congruence | discriminate]. }
  destruct (rank_bounds (length (values rs) - 1) (1 - cl)) as [Ha Hb];
    try lra.
  remember (of_nat (length (values rs) - 1) * ((1 - cl) * 100 / 100))
    as h eqn:Eh.
  assert (Hb' : h <= of_nat (length (Numpy.sort (values rs)) - 1))
    by (rewrite sort_length; exact Hb).
  destruct (interpolate_rank (Numpy.sort (values rs)) h
              (sort_nonempty _ Hv) Ha Hb') as (Hk & _).
  destruct (interpolate_between (Numpy.sort (values rs)) h
              (sort_sorted _) (sort_nonempty _ Hv) Ha Hb') as [Lo Hi].
  rewrite <- Hp in Lo, Hi.
  assert (In1 : In (nth (Z.to_nat (Qfloor h)) (Numpy.sort (values rs)) 0)
                  (values rs)).
  { eapply Permutation_in; [apply sort_perm |]. apply nth_In. exact Hk. }
  assert (In2 : In (nth (Nat.min (S (Z.to_nat (Qfloor h)))
                           (length (Numpy.sort (values rs)) - 1))
                      (Numpy.sort (values rs)) 0) (values rs)).
  { eapply Permutation_in; [apply sort_perm |]. apply nth_In. lia. }
  apply Hab in In1. apply Hab in In2. split; lra.
Qed.

Lemma historical_var_within_range_witness :
  exists v,
    RiskCalculator.historical_var (RiskCalculator.init sample5 (80 # 100))
      = Ok (Num v)
    /\ - (2 # 100) <= v /\ v <= - - (5 # 100).
Proof.
  apply (historical_var_within_range sample5 (80 # 100)
           (- (5 # 100)) (2 # 100)).
  - discriminate.
  - unfold Qle; simpl; lia.
  - unfold Qle; simpl; lia.
  - intros x Hx. simpl in Hx.
    destruct Hx as [E | [E | [E | [E | [E | []]]]]]; subst x;
      split; unfold Qle; simpl; lia.
Defined.

(** X2: a higher confidence level never gives a smaller historical VaR. *)
Theorem historical_var_monotone : forall rs cl1 cl2,
  rs <> [] -> 0 <= cl1 -> cl1 <= cl2 -> cl2 <= 1 ->
  exists v1 v2,
    RiskCalculator.historical_var (RiskCalculator.init rs cl1) = Ok (Num v1)
    /\ RiskCalculator.historical_var (RiskCalculator.init rs cl2)
       = Ok (Num v2)
    /\ v1 <= v2.
Proof.
  intros rs cl1 cl2 Hne H0 H12 H1.
  destruct (historical_var_value rs cl1 Hne) as (p1 & E1 & Hp1 & _); try lra.
  destruct (historical_var_value rs cl2 Hne) as (p2 & E2 & Hp2 & _); try lra.
  exists (- p1), (- p2). split; [exact E1 |]. split; [exact E2 |].
  assert (Hv : values rs <> []).
  { destruct rs; [congruence | discriminate]. }
  destruct (rank_bounds (length (values rs) - 1) (1 - cl1)) as [A1 B1];
    try lra.
  destruct (rank_bounds (length (values rs) - 1) (1 - cl2)) as [A2 B2];
    try lra.
  assert (Hle : of_nat (length (values rs) - 1) * ((1 - cl2) * 100 / 100)
                <= of_nat (length (values rs) - 1) * ((1 - cl1) * 100 / 100)).
  { rewrite !quantile_of_alpha.
    pose proof (of_nat_nonneg (length (values rs) - 1)) as Hn. nra. }
  assert (Hmono : p2 <= p1).
  { rewrite Hp1, Hp2. apply interpolate_monotone.
    - apply sort_sorted.
    - apply sort_nonempty; exact Hv.
    - exact A2.
    - exact Hle.
    - rewrite sort_length. exact B1. }
  lra.
Qed.

Lemma historical_var_monotone_witness :
  exists v1 v2,
    RiskCalculator.historical_var (RiskCalculator.init sample5 (80 # 100))
      = Ok (Num v1)
    /\ RiskCalculator.historical_var (RiskCalculator.init sample5 (95 # 100))
       = Ok (Num v2)
    /\ v1 <= v2.
Proof.
  apply (historical_var_monotone sample5 (80 # 100) (95 # 100)).
  - discriminate.
  - unfold Qle; simpl; lia.
  - unfold Qle; simpl; lia.
  - unfold Qle; simpl; lia.
Defined.

Section AffineFacts.
Variables a b : Q.
Hypothesis Ha : 0 < a.

Let f (x : Q) : Q := a * x + b.

Lemma Qle_bool_affine : forall x y, Qle_bool (f x) (f y) = Qle_bool x y.
Proof.
  intros x y. unfold f.
  destruct (Qle_bool x y) eqn:E.
  - apply Qle_bool_iff. apply Qle_bool_iff in E. nra.
  - destruct (Qle_bool (a * x + b) (a * y + b)) eqn:F; [| reflexivity].
    apply Qle_bool_iff in F.
    assert (H : x <= y).
    { destruct (Qlt_le_dec y x) as [Hlt | Hle]; [| exact Hle].
      exfalso. nra. }
    apply Qle_bool_iff in H. congruence.
Qed.

Lemma insert_affine : forall x l,
  Numpy.insert (f x) (map f l) = map f (Numpy.insert x l).
Proof.
  intros x l. induction l as [| y t IH]; simpl.
  - reflexivity.
  - rewrite Qle_bool_affine. destruct (Qle_bool x y); simpl.
    + reflexivity.
    + rewrite IH. reflexivity.
Qed.

Lemma sort_affine : forall l, Numpy.sort (map f l) = map f (Numpy.sort l).
Proof.
  induction l as [| x t IH]; simpl.
  - reflexivity.
  - rewrite IH. apply insert_affine.
Qed.

Lemma nth_map_affine : forall s k,
  (k < length s)%nat -> nth k (map f s) 0 = f (nth k s 0).
Proof.
  intros s k Hk. rewrite (nth_indep _ 0 (f 0)) by (rewrite length_map; exact Hk).
  apply map_nth.
Qed.

Lemma interpolate_affine : forall s h,
  s <> [] -> 0 <= h -> h <= of_nat (length s - 1) ->
  Numpy.interpolate (map f s) h == f (Numpy.interpolate s h).
Proof.
  intros s h Hne H0 Hn.
  destruct (interpolate_rank s h Hne H0 Hn) as (Hk & _ & _ & E).
  assert (Hne' : map f s <> []) by (destruct s; [congruence | discriminate]).
  assert (Hn' : h <= of_nat (length (map f s) - 1))
    by (rewrite length_map; exact Hn).
  destruct (interpolate_rank (map f s) h Hne' H0 Hn') as (_ & _ & _ & E').
  rewrite E', E. rewrite length_map.
  rewrite !nth_map_affine by lia. unfold f. ring.
Qed.

Lemma values_affine : forall rs,
  values (affine_series a b rs) = map f (values rs).
Proof.
  intros rs. unfold values, affine_series. rewrite !map_map.
  apply map_ext. intros [d r]. reflexivity.
Qed.

(** The percentile of the transformed sample is the transformed percentile. *)
Lemma historical_var_affine_value : forall rs cl,
  rs <> [] -> 0 <= cl -> cl <= 1 ->
  exists p p',
    RiskCalculator.historical_var (RiskCalculator.init rs cl)
      = Ok (Num (- p))
    /\ RiskCalculator.historical_var
         (RiskCalculator.init (affine_series a b rs) cl) = Ok (Num (- p'))
    /\ p' == f p.
Proof.
  intros rs cl Hne H0 H1.
  assert (Hne' : affine_series a b rs <> [])
    by (destruct rs; [congruence | discriminate]).
  destruct (historical_var_value rs cl Hne H0 H1) as (p & E & Hp & _).
  destruct (historical_var_value _ cl Hne' H0 H1) as (p' & E' & Hp' & _).
  exists p, p'. split; [exact E |]. split; [exact E' |].
  assert (Hv : values rs <> []).
  { destruct rs; [congruence | discriminate]. }
  destruct (rank_bounds (length (values rs) - 1) (1 - cl)) as [A B];
    try lra.
  rewrite Hp', Hp. rewrite values_affine, sort_affine, length_map.
  apply interpolate_affine.
  - apply sort_nonempty; exact Hv.
  - exact A.
  - rewrite sort_length. exact B.
Qed.

End AffineFacts.

(** X3: historical VaR is positively homogeneous and translation
    equivariant: on the series a * r + b with a > 0 it is a times the VaR of
    r, minus b. *)
Theorem historical_var_affine : forall a b rs cl,
  0 < a -> rs <> [] -> 0 <= cl -> cl <= 1 ->
  exists v v',
    RiskCalculator.historical_var (RiskCalculator.init rs cl) = Ok (Num v)
    /\ RiskCalculator.historical_var
         (RiskCalculator.init (affine_series a b rs) cl) = Ok (Num v')
    /\ v' == a * v - b.
Proof.
  intros a b rs cl Ha Hne H0 H1.
  destruct (historical_var_affine_value a b Ha rs cl Hne H0 H1)
    as (p & p' & E & E' & Hpp).
  exists (- p), (- p'). split; [exact E |]. split; [exact E' |].
  rewrite Hpp. ring.
Qed.

Lemma historical_var_affine_witness :
  exists v v',
    RiskCalculator.historical_var (RiskCalculator.init sample5 (80 # 100))
      = Ok (Num v)
    /\ RiskCalculator.historical_var
         (RiskCalculator.init (affine_series 2 (1 # 100) sample5) (80 # 100))
       = Ok (Num v')
    /\ v' == 2 * v - (1 # 100).
Proof.
  apply (historical_var_affine 2 (1 # 100) sample5 (80 # 100)).
  - reflexivity.
  - discriminate.
  - unfold Qle; simpl; lia.
  - unfold Qle; simpl; lia.
Defined.

(** * Confidence levels outside the unit interval *)

Lemma percentile_out_of_range : forall xs al,
  al < 0 \/ 1 < al -> Numpy.percentile xs (al * 100) = Raise ValueError.
Proof.
  intros xs al H. unfold Numpy.percentile.
  assert (E : Qle_bool 0 (al * 100 / 100) && Qle_bool (al * 100 / 100) 1
              = false).
  { apply andb_false_iff. destruct H as [H | H]; [left | right].
    - destruct (Qle_bool 0 (al * 100 / 100)) eqn:F; [| reflexivity].
      apply Qle_bool_iff in F. rewrite quantile_of_alpha in F. lra.
    - destruct (Qle_bool (al * 100 / 100) 1) eqn:F; [| reflexivity].
      apply Qle_bool_iff in F. rewrite quantile_of_alpha in F. lra. }
  rewrite E. reflexivity.
Qed.

(** X5: with a confidence level below 0 or above 1, the percentile-based
    functions fail with numpy's ValueError, on any series and from any
    generator state: historical_var, historical_cvar, monte_carlo_var,
    monte_carlo_cvar and get_all_metrics. *)
Theorem confidence_out_of_range :
  forall (L : MathLib) (G : Rng) rs cl pv n (s : rng_state),
  cl < 0 \/ 1 < cl ->
  let calc := RiskCalculator.init rs cl in
  RiskCalculator.historical_var calc = Raise ValueError
  /\ RiskCalculator.historical_cvar calc = Raise ValueError
  /\ RiskCalculator.monte_carlo_var calc n s = Raise ValueError
  /\ RiskCalculator.monte_carlo_cvar calc n s = Raise ValueError
  /\ RiskCalculator.get_all_metrics calc pv n s = Raise ValueError.
Proof.
  intros L G rs cl pv n s H calc.
  assert (Hal : 1 - cl < 0 \/ 1 < 1 - cl) by (destruct H; [right | left]; lra).
  assert (Eh : RiskCalculator.historical_var calc = Raise ValueError).
  { unfold RiskCalculator.historical_var. simpl.
    rewrite percentile_out_of_range by exact Hal. reflexivity. }
  split; [exact Eh |]. split; [| split; [| split]].
  - unfold RiskCalculator.historical_cvar. rewrite Eh. reflexivity.
  - unfold RiskCalculator.monte_carlo_var, bind, NumpyRandom.normal, lift.
    destruct (vltb _ _); [reflexivity |].
    destruct (standard_normal s n) as [zs s']. simpl.
    rewrite percentile_out_of_range by exact Hal. reflexivity.
  - unfold RiskCalculator.monte_carlo_cvar, bind, NumpyRandom.normal, lift.
    destruct (vltb _ _); [reflexivity |].
    destruct (standard_normal s n) as [zs s']. simpl.
    rewrite percentile_out_of_range by exact Hal. reflexivity.
  - unfold RiskCalculator.get_all_metrics, bind at 1, lift.
    rewrite Eh. reflexivity.
Qed.

Lemma confidence_out_of_range_witness :
  let calc := RiskCalculator.init sample5 (3 # 2) in
  RiskCalculator.historical_var calc = Raise ValueError
  /\ RiskCalculator.historical_cvar calc = Raise ValueError
  /\ RiskCalculator.monte_carlo_var calc 5 0%nat = Raise ValueError
  /\ RiskCalculator.monte_carlo_cvar calc 5 0%nat = Raise ValueError
  /\ RiskCalculator.get_all_metrics calc 1 5 0%nat = Raise ValueError.
Proof.
  apply (confidence_out_of_range ToyMath ToyRng sample5 (3 # 2) 1 5%nat 0%nat).
  right. reflexivity.
Defined.

(** * All metrics at once *)

Section AllMetricsFacts.
Context {L : MathLib} {G : Rng}.

Lemma monte_carlo_cvar_total : forall self n s,
  (0 < n)%nat ->
  0 <= RiskCalculator.alpha self -> RiskCalculator.alpha self <= 1 ->
  exists c,
    RiskCalculator.monte_carlo_cvar self n s
    = Ok (c, snd (standard_normal s n)).
Proof.
  intros self n s Hn H0 H1.
  unfold RiskCalculator.monte_carlo_cvar, bind, NumpyRandom.normal.
  rewrite pandas_std_not_negative.
  pose proof (standard_normal_length s n) as Hlen.
  destruct (standard_normal s n) as [zs s'] eqn:Ez. simpl in Hlen.
  set (a := map _ zs).
  assert (Ha : a <> []).
  { unfold a. destruct zs; [simpl in Hlen; lia | discriminate]. }
  destruct (percentile_total a (RiskCalculator.alpha self) Ha H0 H1)
    as (v & Ev).
  unfold lift. rewrite Ev. eexists. reflexivity.
Qed.

End AllMetricsFacts.

(** X6: on a non-empty series, with a confidence level in [0,1] and at least
    one simulation, get_all_metrics returns; its six entries are what the six
    functions return, the Monte Carlo VaR computed from the generator state
    at entry and the Monte Carlo CVaR from the state after those n draws, so
    from a different sample; the generator is left 2n draws further; and the
    second dictionary is the first scaled by portfolio_value. *)
Theorem get_all_metrics_composition :
  forall (L : MathLib) (G : Rng) rs cl pv n (s : rng_state),
  rs <> [] -> 0 <= cl -> cl <= 1 -> (0 < n)%nat ->
  let calc := RiskCalculator.init rs cl in
  let s1 := snd (standard_normal s n) in
  let s2 := snd (standard_normal s1 n) in
  exists hv hc mv mc,
    RiskCalculator.historical_var calc = Ok hv
    /\ RiskCalculator.historical_cvar calc = Ok hc
    /\ RiskCalculator.monte_carlo_var calc n s = Ok (mv, s1)
    /\ RiskCalculator.monte_carlo_cvar calc n s1 = Ok (mc, s2)
    /\ let m := {| RiskCalculator.Historical_VaR := hv;
                   RiskCalculator.Historical_CVaR := hc;
                   RiskCalculator.Parametric_VaR :=
                     RiskCalculator.parametric_var calc;
                   RiskCalculator.Parametric_CVaR :=
                     RiskCalculator.parametric_cvar calc;
                   RiskCalculator.Monte_Carlo_VaR := mv;
                   RiskCalculator.Monte_Carlo_CVaR := mc |} in
       RiskCalculator.get_all_metrics calc pv n s
       = Ok ((m, RiskCalculator.scale pv m), s2).
Proof.
  intros L G rs cl pv n s Hne H0 H1 Hn calc s1 s2.
  destruct (historical_cvar_value rs cl Hne H0 H1)
    as (hv & tail & Ev & _ & _ & Ec).
  assert (A0 : 0 <= RiskCalculator.alpha calc) by (simpl; lra).
  assert (A1 : RiskCalculator.alpha calc <= 1) by (simpl; lra).
  destruct (monte_carlo_var_total calc n s Hn A0 A1) as (mv & Em).
  destruct (monte_carlo_cvar_total calc n s1 Hn A0 A1) as (mc & Emc).
  fold s1 in Em. fold s2 in Emc.
  exists (Num hv), (Num (- (Numpy.Qsum tail / of_nat (length tail)))), mv, mc.
  split; [exact Ev |]. split; [exact Ec |].
  split; [exact Em |]. split; [exact Emc |].
  intros m. unfold m, calc in *.
  unfold RiskCalculator.get_all_metrics, bind, lift, ret.
  rewrite Ev, Ec. cbv beta iota. rewrite Em. cbv beta iota.
  rewrite Emc. reflexivity.
Qed.

Lemma get_all_metrics_composition_witness :
  let calc := RiskCalculator.init sample3 (80 # 100) in
  exists hv hc mv mc,
    RiskCalculator.historical_var calc = Ok hv
    /\ RiskCalculator.historical_cvar calc = Ok hc
    /\ RiskCalculator.monte_carlo_var calc 5 0%nat = Ok (mv, 5%nat)
    /\ RiskCalculator.monte_carlo_cvar calc 5 5%nat = Ok (mc, 10%nat)
    /\ let m := {| RiskCalculator.Historical_VaR := hv;
                   RiskCalculator.Historical_CVaR := hc;
                   RiskCalculator.Parametric_VaR :=
                     RiskCalculator.parametric_var calc;
                   RiskCalculator.Parametric_CVaR :=
                     RiskCalculator.parametric_cvar calc;
                   RiskCalculator.Monte_Carlo_VaR := mv;
                   RiskCalculator.Monte_Carlo_CVaR := mc |} in
       RiskCalculator.get_all_metrics calc 1 5 0%nat
       = Ok ((m, RiskCalculator.scale 1 m), 10%nat).
Proof.
  apply (get_all_metrics_composition ToyMath ToyRng sample3 (80 # 100) 1
           5%nat 0%nat).
  - discriminate.
  - unfold Qle; simpl; lia.
  - unfold Qle; simpl; lia.
  - lia.
Defined.

(** * Further properties of the backtester *)

Section ViolationFacts.

Lemma same_index_iff : forall a b,
  VaRBacktester.same_index a b = true <-> a = b.
Proof.
  induction a as [| x a IH]; intros [| y b]; simpl; split; intros H;
    try reflexivity; try discriminate.
  - apply andb_true_iff in H. destruct H as [Hxy Hab].
    apply Z.eqb_eq in Hxy. apply IH in Hab. congruence.
  - injection H as Hxy Hab. apply andb_true_iff. split.
    + apply Z.eqb_eq. exact Hxy.
    + apply IH. exact Hab.
Qed.

Lemma same_index_false : forall a b,
  a <> b -> VaRBacktester.same_index a b = false.
Proof.
  intros a b H. destruct (VaRBacktester.same_index a b) eqn:E;
    [| reflexivity].
  apply same_index_iff in E. contradiction.
Qed.

(** The exceedances the code averages: one positive number per violation. *)
Lemma exceedances_positive : forall (l : list ((Z * Q) * (Z * val))),
  exists es,
    map (fun '(((_, r), (_, v)), _) => vsub (Num (- r)) v)
      (filter (fun '(_, (_, b)) => b)
         (combine l
            (map (fun '((d, r), (_, v)) => (d, vgtb (Num (- r)) v)) l)))
    = map Num es
    /\ length es
       = length (filter (fun '((_, r), (_, v)) => vgtb (Num (- r)) v) l)
    /\ forall e, In e es -> 0 < e.
Proof.
  induction l as [| [[d r] [d' v]] l IH].
  - exists []. repeat split. intros e [].
  - destruct IH as (es & E & Hl & Hpos).
    cbn [map combine filter].
    destruct (vgtb (Num (- r)) v) eqn:F.
    + destruct v as [y |]; [| discriminate F].
      exists (- r - y :: es). cbn [map length]. rewrite E, Hl.
      split; [reflexivity |]. split; [reflexivity |].
      intros e [He | He]; [| apply Hpos; exact He].
      subst e. unfold vgtb, vltb in F. apply negb_true_iff in F.
      destruct (Qlt_le_dec y (- r)) as [Hlt | Hle]; [lra |].
      apply Qle_bool_iff in Hle. congruence.
    + exists es. repeat split; assumption.
Qed.

Lemma dropna_map_Num : forall es, Pandas.dropna (map Num es) = es.
Proof.
  induction es as [| e t IH]; simpl; [reflexivity | rewrite IH; reflexivity].
Qed.

Lemma Qsum_positive : forall es,
  es <> [] -> (forall e, In e es -> 0 < e) -> 0 < Numpy.Qsum es.
Proof.
  induction es as [| e t IH]; intros Hne Hpos; [congruence |].
  change (Numpy.Qsum (e :: t)) with (e + Numpy.Qsum t).
  assert (He : 0 < e) by (apply Hpos; left; reflexivity).
  destruct t as [| e' t'].
  - change (Numpy.Qsum []) with 0. lra.
  - assert (Ht : 0 < Numpy.Qsum (e' :: t')).
    { apply IH; [discriminate |]. intros x Hx. apply Hpos. right. exact Hx. }
    lra.
Qed.

End ViolationFacts.

(** X7: on aligned series calculate_avg_exceedance returns a finite number:
    exactly 0 when no loss exceeds its estimate, and a strictly positive
    average otherwise. *)
Theorem avg_exceedance_sign : forall self,
  index (VaRBacktester.returns self)
    = index (VaRBacktester.var_estimates self) ->
  let x := violation_count (VaRBacktester.returns self)
             (VaRBacktester.var_estimates self) in
  exists e,
    VaRBacktester.calculate_avg_exceedance self = Ok (Num e)
    /\ (x = 0%nat -> e = 0)
    /\ ((0 < x)%nat -> 0 < e).
Proof.
  intros self Hidx x.
  apply same_index_iff in Hidx.
  destruct (get_violations_aligned self Hidx) as (viol & Ev & _ & Hcnt).
  fold x in Hcnt.
  unfold VaRBacktester.calculate_avg_exceedance. rewrite Ev. unfold res_bind.
  rewrite Hcnt.
  destruct (Nat.eqb x 0) eqn:Ex.
  - exists 0. split; [reflexivity |]. split; [reflexivity |].
    apply Nat.eqb_eq in Ex. lia.
  - apply Nat.eqb_neq in Ex.
    assert (Eviol : viol = map (fun '((d, r), (_, v)) =>
                                  (d, vgtb (Num (- r)) v))
                             (combine (VaRBacktester.returns self)
                                (VaRBacktester.var_estimates self))).
    { unfold VaRBacktester.get_violations in Ev. rewrite Hidx in Ev.
      congruence. }
    destruct (exceedances_positive
                (combine (VaRBacktester.returns self)
                   (VaRBacktester.var_estimates self)))
      as (es & Ees & Hl & Hpos).
    rewrite Eviol, Ees.
    unfold Pandas.mean_skipna. rewrite dropna_map_Num.
    assert (Hes : es <> []).
    { intros Hnil. subst es. simpl in Hl. unfold x, violation_count in Ex.
      apply Ex. symmetry. exact Hl. }
    rewrite pandas_mean_value by exact Hes.
    exists (sample_mean es). split; [reflexivity |]. split; [lia |].
    intros _. unfold sample_mean.
    apply Qlt_shift_div_l.
    + apply of_nat_pos. destruct es; [congruence | simpl; lia].
    + rewrite Qmult_0_l. apply Qsum_positive; assumption.
Qed.

Lemma avg_exceedance_sign_witness :
  let self := VaRBacktester.init sample5 (flat_estimate sample5 (34 # 1000))
                (95 # 100) in
  exists e,
    VaRBacktester.calculate_avg_exceedance self = Ok (Num e) /\ 0 < e.
Proof.
  intros self.
  assert (Hidx : index (VaRBacktester.returns self)
                 = index (VaRBacktester.var_estimates self)) by reflexivity.
  destruct (avg_exceedance_sign self Hidx) as (e & E & _ & Hpos).
  exists e. split; [exact E |]. apply Hpos. vm_compute. lia.
Defined.

(** X8: when the two series do not carry the same index, get_violations,
    kupiec_test and calculate_avg_exceedance all fail with pandas'
    ValueError. *)
Theorem misaligned_index_raises : forall (L : MathLib) self,
  index (VaRBacktester.returns self)
    <> index (VaRBacktester.var_estimates self) ->
  VaRBacktester.get_violations self = Raise ValueError
  /\ VaRBacktester.kupiec_test self = Raise ValueError
  /\ VaRBacktester.calculate_avg_exceedance self = Raise ValueError.
Proof.
  intros L self H. apply same_index_false in H.
  assert (E : VaRBacktester.get_violations self = Raise ValueError).
  { unfold VaRBacktester.get_violations. rewrite H. reflexivity. }
  split; [exact E |]. split.
  - unfold VaRBacktester.kupiec_test. rewrite E. reflexivity.
  - unfold VaRBacktester.calculate_avg_exceedance. rewrite E. reflexivity.
Qed.

Lemma misaligned_index_raises_witness :
  let self := VaRBacktester.init sample5 (flat_estimate sample3 (34 # 1000))
                (95 # 100) in
  VaRBacktester.get_violations self = Raise ValueError
  /\ VaRBacktester.kupiec_test self = Raise ValueError
  /\ VaRBacktester.calculate_avg_exceedance self = Raise ValueError.
Proof.
  apply (misaligned_index_raises ToyMath
           (VaRBacktester.init sample5 (flat_estimate sample3 (34 # 1000))
              (95 # 100))).
  discriminate.
Defined.

Section KupiecEdges.
Context {L : MathLib}.

(** kupiec_test in terms of the two counts, outside the degenerate branch. *)
Lemma kupiec_test_regular : forall self,
  VaRBacktester.same_index (index (VaRBacktester.returns self))
    (index (VaRBacktester.var_estimates self)) = true ->
  let x := violation_count (VaRBacktester.returns self)
             (VaRBacktester.var_estimates self) in
  let n := length (VaRBacktester.returns self) in
  (0 < x < n)%nat ->
  exists r,
    VaRBacktester.kupiec_test self = Ok r
    /\ VaRBacktester.n_observations r = n
    /\ VaRBacktester.violation_rate r = Num (of_nat x / of_nat n)
    /\ VaRBacktester.lr_statistic r
       = Num (kupiec_lr x n (VaRBacktester.alpha self)).
Proof.
  intros self H x n Hx.
  destruct (get_violations_aligned self H) as (viol & Ev & Hlen & Hcnt).
  fold x in Hcnt. fold n in Hlen.
  unfold VaRBacktester.kupiec_test. rewrite Ev. unfold res_bind.
  rewrite Hcnt, Hlen.
  assert (E0 : Nat.eqb x 0 = false) by (apply Nat.eqb_neq; lia).
  assert (En : Nat.eqb x n = false) by (apply Nat.eqb_neq; lia).
  rewrite E0, En. cbn [orb].
  assert (Hn : Qeq_bool (of_nat n) 0 = false).
  { destruct (Qeq_bool (of_nat n) 0) eqn:E; [| reflexivity].
    apply Qeq_bool_iff in E.
    assert (Hpos : 0 < of_nat n) by (apply of_nat_pos; lia).
    lra. }
  eexists. split; [reflexivity |]. simpl.
  split; [reflexivity |]. unfold vdiv. rewrite Hn. split; reflexivity.
Qed.

End KupiecEdges.

(** X9: when the observed violation rate x/n is the expected rate alpha
    itself, the likelihood-ratio statistic of kupiec_test is 0. *)
Theorem kupiec_lr_zero_at_expected_rate : forall (L : MathLib) self,
  index (VaRBacktester.returns self)
    = index (VaRBacktester.var_estimates self) ->
  let x := violation_count (VaRBacktester.returns self)
             (VaRBacktester.var_estimates self) in
  let n := length (VaRBacktester.returns self) in
  (0 < x < n)%nat ->
  VaRBacktester.alpha self = of_nat x / of_nat n ->
  exists r lr,
    VaRBacktester.kupiec_test self = Ok r
    /\ VaRBacktester.violation_rate r = Num (VaRBacktester.alpha self)
    /\ VaRBacktester.lr_statistic r = Num lr
    /\ lr == 0.
Proof.
  intros L self Hidx x n Hx Ha.
  apply same_index_iff in Hidx.
  destruct (kupiec_test_regular self Hidx Hx) as (r & E & _ & Hr & Hlr).
  fold x n in Hr, Hlr.
  exists r, (kupiec_lr x n (VaRBacktester.alpha self)).
  split; [exact E |]. split; [rewrite Ha; exact Hr |].
  split; [exact Hlr |].
  unfold kupiec_lr. rewrite <- Ha. ring.
Qed.

(** One violation in five observations, tested at alpha = 1/5. *)
Lemma kupiec_lr_zero_at_expected_rate_witness :
  let self := VaRBacktester.init sample5 (flat_estimate sample5 (34 # 1000))
                (4 # 5) in
  exists r lr,
    VaRBacktester.kupiec_test self = Ok r
    /\ VaRBacktester.violation_rate r = Num (VaRBacktester.alpha self)
    /\ VaRBacktester.lr_statistic r = Num lr
    /\ lr == 0.
Proof.
  intros self.
  assert (Hidx : index (VaRBacktester.returns self)
                 = index (VaRBacktester.var_estimates self)) by reflexivity.
  assert (Hx : (0 < violation_count (VaRBacktester.returns self)
                      (VaRBacktester.var_estimates self)
                < length (VaRBacktester.returns self))%nat)
    by (vm_compute; lia).
  assert (Ha : VaRBacktester.alpha self
               = of_nat (violation_count (VaRBacktester.returns self)
                           (VaRBacktester.var_estimates self))
                 / of_nat (length (VaRBacktester.returns self)))
    by reflexivity.
  exact (kupiec_lr_zero_at_expected_rate ToyMath self Hidx Hx Ha).
Defined.

(** X10: on two empty series kupiec_test does not fail: it reports no
    observation, a NaN violation rate (0/0), LR = 0, p-value 1 and no
    rejection, and calculate_avg_exceedance returns 0. *)
Theorem empty_series_backtest : forall (L : MathLib) self,
  VaRBacktester.returns self = [] ->
  VaRBacktester.var_estimates self = [] ->
  VaRBacktester.kupiec_test self
    = Ok {| VaRBacktester.n_violations := 0;
            VaRBacktester.n_observations := 0;
            VaRBacktester.violation_rate := NaN;
            VaRBacktester.expected_rate := VaRBacktester.alpha self;
            VaRBacktester.lr_statistic := Num 0;
            VaRBacktester.p_value := Num 1;
            VaRBacktester.reject_null := false |}
  /\ VaRBacktester.calculate_avg_exceedance self = Ok (Num 0).
Proof.
  intros L self Hr Hv.
  unfold VaRBacktester.kupiec_test, VaRBacktester.calculate_avg_exceedance,
    VaRBacktester.get_violations.
  rewrite Hr, Hv. split; reflexivity.
Qed.

Lemma empty_series_backtest_witness :
  VaRBacktester.kupiec_test (VaRBacktester.init [] [] (95 # 100))
    = Ok {| VaRBacktester.n_violations := 0;
            VaRBacktester.n_observations := 0;
            VaRBacktester.violation_rate := NaN;
            VaRBacktester.expected_rate := 1 - (95 # 100);
            VaRBacktester.lr_statistic := Num 0;
            VaRBacktester.p_value := Num 1;
            VaRBacktester.reject_null := false |}
  /\ VaRBacktester.calculate_avg_exceedance
       (VaRBacktester.init [] [] (95 # 100)) = Ok (Num 0).
Proof.
  apply (empty_series_backtest ToyMath (VaRBacktester.init [] [] (95 # 100)));
    reflexivity.
Defined.

(** * Further properties of the rolling backtest *)

Ltac decide_method :=
  repeat match goal with
         | |- context [String.eqb ?a ?b] =>
             let r := eval vm_compute in (String.eqb a b) in
             change (String.eqb a b) with r
         end;
  cbv iota.

Section RollingMore.
Context {L : MathLib} {G : Rng}.

(** The generator state a known method leaves behind. *)
Lemma select_var_state : forall m calc v0 s v s',
  known_method m ->
  0 <= RiskCalculator.alpha calc -> RiskCalculator.alpha calc <= 1 ->
  VaRBacktester.select_var m calc v0 s = Ok (v, s') ->
  s' = rolling_step m s.
Proof.
  intros m calc v0 s v s' Hm H0 H1.
  destruct Hm as [E | [E | E]]; subst m;
    unfold VaRBacktester.select_var, rolling_step; decide_method.
  - unfold bind, lift, ret.
    destruct (RiskCalculator.historical_var calc); intros H;
      [congruence | discriminate H].
  - unfold ret. intros H. congruence.
  - destruct (monte_carlo_var_total calc VaRBacktester.default_n_simulations s
                default_n_simulations_pos H0 H1) as (mv & Em).
    unfold bind. rewrite Em. unfold ret. intros H. congruence.
Qed.

(** The whole call, for a known method: two series over the dates from
    position [W] on, and the generator advanced pass by pass. *)
Lemma rolling_known_value : forall self W m (s : rng_state),
  let rs := VaRBacktester.returns self in
  let n := length rs in
  (W < n)%nat ->
  0 < VaRBacktester.confidence_level self ->
  VaRBacktester.confidence_level self < 1 ->
  known_method m -> (m = "historical"%string -> (0 < W)%nat) ->
  exists vs acts,
    VaRBacktester.rolling_var_backtest self W m s
    = Ok ((combine (skipn W (index rs)) vs,
           combine (skipn W (index rs)) acts),
          Nat.iter (n - W) (rolling_step m) s)
    /\ length vs = (n - W)%nat /\ length acts = (n - W)%nat.
Proof.
  intros self W m s rs n HW H0 H1 Hm Hwin.
  destruct (for_each_known self W m Hm H0 H1 Hwin (n - W) W
              {| VaRBacktester.var := None;
                 VaRBacktester.var_list := [];
                 VaRBacktester.actual_list := [] |} s)
    as (vs & acts & ss & st' & s_end & Ef & Hv & Ha & Lv & La & Ls & S0 & Sn & Hj).
  { lia. }
  { fold rs. fold n. lia. }
  simpl in Hv, Ha.
  assert (Lidx : length (skipn W (index rs)) = (n - W)%nat).
  { rewrite length_skipn. unfold index. rewrite length_map. reflexivity. }
  assert (Hchain : forall j, (j <= n - W)%nat ->
            nth_error ss j = Some (Nat.iter j (rolling_step m) s)).
  { induction j as [| j IHj]; intros Hjn.
    - exact S0.
    - destruct (Hj j) as (_ & v & sj & sj' & _ & Hsj & Hsj' & Esel); [lia |].
      rewrite IHj in Hsj by lia. injection Hsj as Hsj. subst sj.
      rewrite Hsj'. f_equal. simpl Nat.iter.
      eapply select_var_state; [exact Hm | | | exact Esel]; simpl; lra. }
  assert (Eend : s_end = Nat.iter (n - W) (rolling_step m) s).
  { rewrite Hchain in Sn by lia. congruence. }
  exists vs, acts. split; [| split; assumption].
  unfold VaRBacktester.rolling_var_backtest. fold rs. fold n.
  unfold bind at 1. rewrite Ef. unfold bind, lift, ret.
  rewrite Hv, Ha, !mk_series_ok by congruence.
  rewrite Eend. reflexivity.
Qed.

Lemma same_index_refl : forall a, VaRBacktester.same_index a a = true.
Proof.
  intros a. apply same_index_iff. reflexivity.
Qed.

(** kupiec_test returns whenever the two series are aligned. *)
Lemma kupiec_test_total : forall self,
  VaRBacktester.same_index (index (VaRBacktester.returns self))
    (index (VaRBacktester.var_estimates self)) = true ->
  exists r,
    VaRBacktester.kupiec_test self = Ok r
    /\ VaRBacktester.n_observations r = length (VaRBacktester.returns self)
    /\ VaRBacktester.n_violations r
       = violation_count (VaRBacktester.returns self)
           (VaRBacktester.var_estimates self).
Proof.
  intros self H.
  destruct (get_violations_aligned self H) as (viol & Ev & Hlen & Hcnt).
  unfold VaRBacktester.kupiec_test. rewrite Ev. unfold res_bind.
  rewrite Hcnt, Hlen.
  destruct (_ || _); eexists; (split; [reflexivity |]); split; reflexivity.
Qed.

Lemma iter_id : forall {A} k (x : A), Nat.iter k (fun y => y) x = x.
Proof.
  induction k as [| k IH]; intros x; simpl; [reflexivity | apply IH].
Qed.

End RollingMore.

(** X11: rolling_var_backtest with the historical or the parametric method
    leaves the ambient generator as it found it; with the Monte Carlo method
    it leaves it L - W batches of the default 10000 draws further. *)
Theorem rolling_generator_state :
  forall (L : MathLib) (G : Rng) self W m (s : rng_state),
  let n := length (VaRBacktester.returns self) in
  (W < n)%nat ->
  0 < VaRBacktester.confidence_level self ->
  VaRBacktester.confidence_level self < 1 ->
  known_method m -> (m = "historical"%string -> (0 < W)%nat) ->
  exists ve ar s_end,
    VaRBacktester.rolling_var_backtest self W m s = Ok ((ve, ar), s_end)
    /\ (m <> "monte_carlo"%string -> s_end = s)
    /\ (m = "monte_carlo"%string ->
        s_end = Nat.iter (n - W)
                  (fun t => snd (standard_normal t
                                   VaRBacktester.default_n_simulations)) s).
Proof.
  intros L G self W m s n HW H0 H1 Hm Hwin.
  destruct (rolling_known_value self W m s HW H0 H1 Hm Hwin)
    as (vs & acts & E & _ & _).
  do 3 eexists. split; [exact E |]. split.
  - intros Hne. unfold rolling_step.
    assert (Eb : String.eqb m "monte_carlo" = false)
      by (apply String.eqb_neq; exact Hne).
    rewrite Eb. apply iter_id.
  - intros Emc. subst m. reflexivity.
Qed.

Lemma rolling_generator_state_witness :
  let self := VaRBacktester.init sample5 (flat_estimate sample5 (34 # 1000))
                (80 # 100) in
  exists ve ar,
    VaRBacktester.rolling_var_backtest self 2 "parametric" 7%nat
    = Ok ((ve, ar), 7%nat).
Proof.
  intros self.
  assert (HW : (2 < length (VaRBacktester.returns self))%nat)
    by (simpl; lia).
  assert (H0 : 0 < VaRBacktester.confidence_level self) by reflexivity.
  assert (H1 : VaRBacktester.confidence_level self < 1) by reflexivity.
  assert (Hm : known_method "parametric") by (right; left; reflexivity).
  assert (Hwin : "parametric"%string = "historical"%string -> (0 < 2)%nat)
    by (intros _; lia).
  destruct (rolling_generator_state ToyMath ToyRng self 2%nat
              "parametric"%string 7%nat HW H0 H1 Hm Hwin)
    as (ve & ar & s_end & E & Hsame & _).
  assert (Es : s_end = 7%nat) by (apply Hsame; discriminate).
  exists ve, ar. rewrite Es in E. exact E.
Defined.

(** X12: the two series rolling_var_backtest returns carry the same index,
    so a backtester built from them (actual returns against estimates, at
    any confidence level) runs its Kupiec test without an alignment error,
    over L - W observations. *)
Theorem rolling_then_kupiec :
  forall (L : MathLib) (G : Rng) self W m (s : rng_state) cl',
  let n := length (VaRBacktester.returns self) in
  (W < n)%nat ->
  0 < VaRBacktester.confidence_level self ->
  VaRBacktester.confidence_level self < 1 ->
  known_method m -> (m = "historical"%string -> (0 < W)%nat) ->
  exists ve ar s_end r,
    VaRBacktester.rolling_var_backtest self W m s = Ok ((ve, ar), s_end)
    /\ index ve = index ar
    /\ VaRBacktester.kupiec_test (VaRBacktester.init ar ve cl') = Ok r
    /\ VaRBacktester.n_observations r = (n - W)%nat
    /\ VaRBacktester.n_violations r = violation_count ar ve.
Proof.
  intros L G self W m s cl' n HW H0 H1 Hm Hwin.
  destruct (rolling_known_value self W m s HW H0 H1 Hm Hwin)
    as (vs & acts & E & Lv & La).
  set (idx := skipn W (index (VaRBacktester.returns self))) in *.
  assert (Lidx : length idx = (n - W)%nat).
  { unfold idx. rewrite length_skipn. unfold index.
    rewrite length_map. reflexivity. }
  assert (Iv : index (combine idx vs) = idx)
    by (apply index_combine; unfold n in *; lia).
  assert (Ia : index (combine idx acts) = idx)
    by (apply index_combine; unfold n in *; lia).
  destruct (kupiec_test_total
              (VaRBacktester.init (combine idx acts) (combine idx vs) cl'))
    as (r & Er & Hn & Hx).
  { simpl. rewrite Iv, Ia. apply same_index_refl. }
  exists (combine idx vs), (combine idx acts),
    (Nat.iter (n - W) (rolling_step m) s), r.
  split; [exact E |]. split; [congruence |]. split; [exact Er |].
  split; [| exact Hx].
  rewrite Hn. simpl. rewrite length_combine. unfold n in *. lia.
Qed.

Lemma rolling_then_kupiec_witness :
  let self := VaRBacktester.init sample5 (flat_estimate sample5 (34 # 1000))
                (80 # 100) in
  exists ve ar s_end r,
    VaRBacktester.rolling_var_backtest self 2 "historical" 0%nat
      = Ok ((ve, ar), s_end)
    /\ VaRBacktester.kupiec_test (VaRBacktester.init ar ve (80 # 100)) = Ok r
    /\ VaRBacktester.n_observations r = 3%nat.
Proof.
  intros self.
  assert (HW : (2 < length (VaRBacktester.returns self))%nat)
    by (simpl; lia).
  assert (H0 : 0 < VaRBacktester.confidence_level self) by reflexivity.
  assert (H1 : VaRBacktester.confidence_level self < 1) by reflexivity.
  assert (Hm : known_method "historical") by (left; reflexivity).
  assert (Hwin : "historical"%string = "historical"%string -> (0 < 2)%nat)
    by (intros _; lia).
  destruct (rolling_then_kupiec ToyMath ToyRng self 2%nat
              "historical"%string 0%nat (80 # 100) HW H0 H1 Hm Hwin)
    as (ve & ar & s_end & r & E & _ & Er & Hn & _).
  exists ve, ar, s_end, r.
  split; [exact E |]. split; [exact Er | exact Hn].
Defined.

(** * Further properties of the portfolio *)

Section PortfolioFacts.

Lemma dot_bounds : forall row w lo hi,
  length row = length w ->
  (forall x, In x w -> 0 <= x) ->
  (forall r, In r row -> lo <= r /\ r <= hi) ->
  lo * Numpy.Qsum w <= Portfolio.dot row w
  /\ Portfolio.dot row w <= hi * Numpy.Qsum w.
Proof.
  induction row as [| r row IH]; intros [| x w] lo hi Hlen Hw Hr;
    simpl in Hlen; try discriminate.
  - change (lo * 0 <= 0 /\ 0 <= hi * 0). split; lra.
  - change (Portfolio.dot (r :: row) (x :: w))
      with (r * x + Portfolio.dot row w).
    change (Numpy.Qsum (x :: w)) with (x + Numpy.Qsum w).
    assert (Hx : 0 <= x) by (apply Hw; left; reflexivity).
    assert (Hb : lo <= r /\ r <= hi) by (apply Hr; left; reflexivity).
    destruct (IH w lo hi) as [A B].
    + lia.
    + intros y Hy. apply Hw. right. exact Hy.
    + intros y Hy. apply Hr. right. exact Hy.
    + destruct Hb as [Hlo Hhi]. split; nra.
Qed.

Lemma dot_repeat : forall row c k,
  length row = k -> Portfolio.dot row (repeat c k) == c * Numpy.Qsum row.
Proof.
  induction row as [| r row IH]; intros c k Hlen; subst k.
  - change (0 == c * 0). ring.
  - change (Portfolio.dot (r :: row) (repeat c (length (r :: row))))
      with (r * c + Portfolio.dot row (repeat c (length row))).
    change (Numpy.Qsum (r :: row)) with (r + Numpy.Qsum row).
    rewrite (IH c (length row) eq_refl). ring.
Qed.

Lemma portfolio_returns_nth : forall self t d row,
  length (Portfolio.weights self)
    = length (Portfolio.columns (Portfolio.returns self)) ->
  nth_error (Portfolio.rows (Portfolio.returns self)) t = Some (d, row) ->
  exists ps,
    Portfolio.portfolio_returns self = Ok ps
    /\ index ps = index (Portfolio.rows (Portfolio.returns self))
    /\ nth_error ps t = Some (d, Portfolio.dot row (Portfolio.weights self)).
Proof.
  intros self t d row Hlen Hnth. unfold Portfolio.portfolio_returns.
  rewrite Hlen, Nat.eqb_refl. eexists. split; [reflexivity |]. split.
  - unfold index. rewrite map_map. apply map_ext. intros [d' r']. reflexivity.
  - rewrite nth_error_map, Hnth. reflexivity.
Qed.

End PortfolioFacts.

(** X13: with as many weights as assets, none negative and summing to 1,
    the portfolio return of each date lies between the smallest and the
    largest asset return of that date. *)
Theorem portfolio_return_convex : forall self t d row lo hi,
  length (Portfolio.weights self)
    = length (Portfolio.columns (Portfolio.returns self)) ->
  (forall x, In x (Portfolio.weights self) -> 0 <= x) ->
  Numpy.Qsum (Portfolio.weights self) == 1 ->
  nth_error (Portfolio.rows (Portfolio.returns self)) t = Some (d, row) ->
  length row = length (Portfolio.columns (Portfolio.returns self)) ->
  (forall r, In r row -> lo <= r /\ r <= hi) ->
  exists ps v,
    Portfolio.portfolio_returns self = Ok ps
    /\ nth_error ps t = Some (d, v)
    /\ lo <= v /\ v <= hi.
Proof.
  intros self t d row lo hi Hlen Hw Hsum Hnth Hrow Hb.
  destruct (portfolio_returns_nth self t d row Hlen Hnth) as (ps & E & _ & En).
  exists ps, (Portfolio.dot row (Portfolio.weights self)).
  split; [exact E |]. split; [exact En |].
  destruct (dot_bounds row (Portfolio.weights self) lo hi) as [A B];
    [congruence | exact Hw | exact Hb |].
  rewrite Hsum in A, B. lra.
Qed.

Lemma portfolio_return_convex_witness :
  exists ps v,
    Portfolio.portfolio_returns half_half = Ok ps
    /\ nth_error ps 0 = Some (0%Z, v)
    /\ - (2 # 100) <= v /\ v <= 1 # 100.
Proof.
  apply (portfolio_return_convex half_half 0%nat 0%Z
           [1 # 100; - (2 # 100)] (- (2 # 100)) (1 # 100)).
  - reflexivity.
  - intros x Hx. simpl in Hx.
    destruct Hx as [E | [E | []]]; subst x; unfold Qle; simpl; lia.
  - reflexivity.
  - reflexivity.
  - reflexivity.
  - intros r Hr. simpl in Hr.
    destruct Hr as [E | [E | []]]; subst r; split; unfold Qle; simpl; lia.
Defined.

(** X14: a portfolio built without weights always has its returns: the
    default weights match the columns, and each date's portfolio return is
    the equal-weight average (1/n) * sum of that date's asset returns; with
    a single asset it is that asset's return. *)
Theorem default_weights_average : forall df,
  exists p ps,
    Portfolio.init df None = Ok p
    /\ Portfolio.portfolio_returns p = Ok ps
    /\ index ps = index (Portfolio.rows df)
    /\ forall t d row,
         nth_error (Portfolio.rows df) t = Some (d, row) ->
         length row = length (Portfolio.columns df) ->
         exists v,
           nth_error ps t = Some (d, v)
           /\ v == 1 / of_nat (length (Portfolio.columns df))
                   * Numpy.Qsum row
           /\ (forall r, row = [r] -> v == r).
Proof.
  intros df.
  set (n := length (Portfolio.columns df)).
  set (p := {| Portfolio.returns := df;
               Portfolio.assets := Portfolio.columns df;
               Portfolio.n_assets := n;
               Portfolio.weights := repeat (1 / of_nat n) n |}).
  assert (Hlen : length (Portfolio.weights p)
                 = length (Portfolio.columns (Portfolio.returns p))).
  { simpl. apply repeat_length. }
  assert (E : Portfolio.portfolio_returns p
              = Ok (map (fun '(d, row) =>
                           (d, Portfolio.dot row (Portfolio.weights p)))
                      (Portfolio.rows df))).
  { unfold Portfolio.portfolio_returns. rewrite Hlen, Nat.eqb_refl.
    reflexivity. }
  exists p, (map (fun '(d, row) =>
                    (d, Portfolio.dot row (Portfolio.weights p)))
               (Portfolio.rows df)).
  split; [reflexivity |]. split; [exact E |]. split.
  - unfold index. rewrite map_map. apply map_ext. intros [d r]. reflexivity.
  - intros t d row Hnth Hrow.
    exists (Portfolio.dot row (Portfolio.weights p)).
    split; [rewrite nth_error_map, Hnth; reflexivity |].
    assert (Ed : Portfolio.dot row (Portfolio.weights p)
                 == 1 / of_nat n * Numpy.Qsum row).
    { simpl. apply dot_repeat. exact Hrow. }
    split; [exact Ed |].
    intros r Er. rewrite Ed. subst row. simpl in Hrow.
    fold n in Hrow. rewrite <- Hrow.
    change (Numpy.Qsum [r]) with (r + 0).
    change (of_nat 1) with 1. field.
Qed.

Section CumprodFacts.

Lemma cumprod_from_length : forall l acc,
  length (Pandas.cumprod_from acc l) = length l.
Proof.
  induction l as [| x t IH]; intros acc; simpl; [reflexivity |].
  rewrite IH. reflexivity.
Qed.

Lemma cumprod_length : forall l, length (Pandas.cumprod l) = length l.
Proof.
  intros [| x t]; simpl; [reflexivity |].
  rewrite cumprod_from_length. reflexivity.
Qed.

Lemma cumprod_from_nth : forall l acc t x,
  nth_error l t = Some x ->
  exists v,
    nth_error (Pandas.cumprod_from acc l) t = Some v
    /\ v == acc * Qprod (firstn (S t) l).
Proof.
  induction l as [| y l IH]; intros acc t x H.
  - destruct t; discriminate H.
  - destruct t as [| t].
    + exists (acc * y). split; [reflexivity |].
      change (Qprod (firstn 1 (y :: l))) with (y * 1). ring.
    + simpl in H. destruct (IH (acc * y) t x H) as (v & E & Hv).
      exists v. split; [exact E |].
      rewrite Hv.
      change (Qprod (firstn (S (S t)) (y :: l)))
        with (y * Qprod (firstn (S t) l)).
      ring.
Qed.

Lemma cumprod_nth : forall l t x,
  nth_error l t = Some x ->
  exists v,
    nth_error (Pandas.cumprod l) t = Some v
    /\ v == Qprod (firstn (S t) l).
Proof.
  intros [| y l] t x H.
  - destruct t; discriminate H.
  - destruct t as [| t].
    + exists y. split; [reflexivity |].
      change (Qprod (firstn 1 (y :: l))) with (y * 1). ring.
    + simpl in H. destruct (cumprod_from_nth l y t x H) as (v & E & Hv).
      exists v. split; [exact E |].
      rewrite Hv.
      change (Qprod (firstn (S (S t)) (y :: l)))
        with (y * Qprod (firstn (S t) l)).
      reflexivity.
Qed.

Lemma Qprod_positive : forall l,
  (forall x, In x l -> 0 < x) -> 0 < Qprod l.
Proof.
  induction l as [| x l IH]; intros H.
  - reflexivity.
  - change (Qprod (x :: l)) with (x * Qprod l).
    assert (Hx : 0 < x) by (apply H; left; reflexivity).
    assert (Hl : 0 < Qprod l) by (apply IH; intros y Hy; apply H; right; exact Hy).
    nra.
Qed.

Lemma portfolio_value_values : forall self initial rets,
  Portfolio.portfolio_returns self = Ok rets ->
  exists pv,
    Portfolio.portfolio_value self initial = Ok pv
    /\ index pv = index rets
    /\ values pv
       = map (fun g => initial * g)
           (Pandas.cumprod (map (fun r => 1 + r) (values rets))).
Proof.
  intros self initial rets E. unfold Portfolio.portfolio_value.
  rewrite E. unfold res_bind. eexists. split; [reflexivity |].
  assert (Hlen : length (map (fun g => initial * g)
                           (Pandas.cumprod
                              (map (fun r => 1 + r) (values rets))))
                 = length (index rets)).
  { rewrite length_map, cumprod_length, length_map.
    unfold values, index. rewrite !length_map. reflexivity. }
  split.
  - apply index_combine. exact Hlen.
  - apply values_combine. exact Hlen.
Qed.

End CumprodFacts.

(** X15: portfolio_value keeps the dates of the portfolio returns, and its
    value at each date is initial_value times the product of (1 + return)
    over the dates up to and including that one; when portfolio_returns
    fails, it fails with the same error. *)
Theorem portfolio_value_compounds : forall self initial,
  (forall rets,
     Portfolio.portfolio_returns self = Ok rets ->
     exists pv,
       Portfolio.portfolio_value self initial = Ok pv
       /\ index pv = index rets
       /\ forall t r,
            nth_error (values rets) t = Some r ->
            exists v,
              nth_error (values pv) t = Some v
              /\ v == initial
                      * Qprod (map (fun x => 1 + x)
                                 (firstn (S t) (values rets))))
  /\ (forall e,
        Portfolio.portfolio_returns self = Raise e ->
        Portfolio.portfolio_value self initial = Raise e).
Proof.
  intros self initial. split.
  - intros rets E.
    destruct (portfolio_value_values self initial rets E) as (pv & Ev & Hi & Hv).
    exists pv. split; [exact Ev |]. split; [exact Hi |].
    intros t r Hr.
    assert (Hg : nth_error (map (fun x => 1 + x) (values rets)) t
                 = Some (1 + r)).
    { rewrite nth_error_map, Hr. reflexivity. }
    destruct (cumprod_nth _ t (1 + r) Hg) as (g & Eg & Hgv).
    exists (initial * g). split.
    + rewrite Hv, nth_error_map, Eg. reflexivity.
    + rewrite Hgv, <- firstn_map. reflexivity.
  - intros e E. unfold Portfolio.portfolio_value. rewrite E. reflexivity.
Qed.

Lemma portfolio_value_compounds_witness :
  exists rets pv v,
    Portfolio.portfolio_returns half_half = Ok rets
    /\ Portfolio.portfolio_value half_half 1000 = Ok pv
    /\ nth_error (values pv) 1 = Some v
    /\ v == 1000 * Qprod (map (fun x => 1 + x) (firstn 2 (values rets))).
Proof.
  destruct (proj1 (portfolio_value_compounds half_half 1000)
              [(0%Z, Portfolio.dot [1 # 100; - (2 # 100)] [1 # 2; 1 # 2]);
               (1%Z, Portfolio.dot [- (1 # 100); 3 # 100] [1 # 2; 1 # 2])]
              eq_refl)
    as (pv & E & _ & Hn).
  destruct (Hn 1%nat (Portfolio.dot [- (1 # 100); 3 # 100] [1 # 2; 1 # 2])
              eq_refl) as (v & Ev & Hv).
  eexists. exists pv, v.
  split; [reflexivity |]. split; [exact E |]. split; [exact Ev | exact Hv].
Defined.

(** X16: with a positive initial value and every portfolio return above
    -100%, every portfolio value is positive. *)
Theorem portfolio_value_positive : forall self initial rets,
  Portfolio.portfolio_returns self = Ok rets ->
  0 < initial ->
  (forall r, In r (values rets) -> - (1) < r) ->
  exists pv,
    Portfolio.portfolio_value self initial = Ok pv
    /\ forall v, In v (values pv) -> 0 < v.
Proof.
  intros self initial rets E Hi Hr.
  destruct (portfolio_value_values self initial rets E) as (pv & Ev & _ & Hv).
  exists pv. split; [exact Ev |].
  intros v Hin. apply In_nth_error in Hin. destruct Hin as (t & Ht).
  rewrite Hv, nth_error_map in Ht.
  destruct (nth_error (Pandas.cumprod (map (fun r => 1 + r) (values rets))) t)
    as [g |] eqn:Eg; [| discriminate Ht].
  injection Ht as Ht. subst v.
  assert (Hlt : Nat.lt t (length (map (fun r => 1 + r) (values rets)))).
  { rewrite <- cumprod_length. apply nth_error_Some. congruence. }
  destruct (nth_error (map (fun r => 1 + r) (values rets)) t) as [x |] eqn:Ex.
  - destruct (cumprod_nth _ t x Ex) as (g' & Eg' & Hg').
    assert (g' = g) by congruence. subst g'.
    assert (Hp : 0 < Qprod (firstn (S t)
                              (map (fun r => 1 + r) (values rets)))).
    { apply Qprod_positive. intros y Hy.
      assert (Hy' : In y (map (fun r => 1 + r) (values rets))).
      { rewrite <- (firstn_skipn (S t)). apply in_or_app. left. exact Hy. }
      clear Hy. rename Hy' into Hy.
      apply in_map_iff in Hy. destruct Hy as (r & Ey & Hry). subst y.
      specialize (Hr r Hry). lra. }
    rewrite Hg'. nra.
  - apply nth_error_None in Ex. unfold Nat.lt in Hlt. lia.
Qed.

Lemma portfolio_value_positive_witness :
  exists pv,
    Portfolio.portfolio_value half_half 1000 = Ok pv
    /\ forall v, In v (values pv) -> 0 < v.
Proof.
  apply (portfolio_value_positive half_half 1000
           [(0%Z, Portfolio.dot [1 # 100; - (2 # 100)] [1 # 2; 1 # 2]);
            (1%Z, Portfolio.dot [- (1 # 100); 3 # 100] [1 # 2; 1 # 2])]).
  - reflexivity.
  - reflexivity.
  - intros r Hr. simpl in Hr.
    destruct Hr as [E | [E | []]]; subst r; reflexivity.
Defined.

(** * Edge cases of the rolling backtest and of the portfolio *)

(** X17: when the window is at least as long as the series, the loop body
    never runs and rolling_var_backtest returns two empty series, without an
    error and without touching the generator, whatever the method name. *)
Theorem rolling_window_too_long :
  forall (L : MathLib) (G : Rng) self W m (s : rng_state),
  (length (VaRBacktester.returns self) <= W)%nat ->
  VaRBacktester.rolling_var_backtest self W m s = Ok (([], []), s).
Proof.
  intros L G self W m s HW. apply rolling_var_backtest_no_pass. exact HW.
Qed.

Lemma rolling_window_too_long_witness :
  VaRBacktester.rolling_var_backtest
    (VaRBacktester.init sample5 (flat_estimate sample5 (34 # 1000)) (80 # 100))
    5 "garch" 3%nat = Ok (([], []), 3%nat).
Proof.
  apply (rolling_window_too_long ToyMath ToyRng
           (VaRBacktester.init sample5 (flat_estimate sample5 (34 # 1000))
              (80 # 100)) 5%nat "garch"%string 3%nat).
  simpl. lia.
Defined.

(** X18: with a confidence level below 0 or above 1 and a window shorter
    than the series, rolling_var_backtest fails on its first pass with
    numpy's ValueError for the historical and the Monte Carlo method. *)
Theorem rolling_confidence_out_of_range :
  forall (L : MathLib) (G : Rng) self W m (s : rng_state),
  VaRBacktester.confidence_level self < 0
  \/ 1 < VaRBacktester.confidence_level self ->
  (W < length (VaRBacktester.returns self))%nat ->
  m = "historical"%string \/ m = "monte_carlo"%string ->
  VaRBacktester.rolling_var_backtest self W m s = Raise ValueError.
Proof.
  intros L G self W m s Hcl HW Hm.
  assert (Hal : 1 - VaRBacktester.confidence_level self < 0
                \/ 1 < 1 - VaRBacktester.confidence_level self)
    by (destruct Hcl; [right | left]; lra).
  unfold VaRBacktester.rolling_var_backtest.
  destruct (length (VaRBacktester.returns self) - W)%nat as [| c] eqn:Ec;
    [lia |].
  simpl seq. simpl VaRBacktester.for_each.
  unfold bind at 1. unfold bind at 1.
  unfold VaRBacktester.loop_body, bind at 1.
  destruct Hm as [E | E]; subst m; unfold VaRBacktester.select_var;
    decide_method.
  - unfold bind, lift, RiskCalculator.historical_var. simpl.
    rewrite percentile_out_of_range by exact Hal. reflexivity.
  - unfold bind at 1.
    unfold RiskCalculator.monte_carlo_var, bind, NumpyRandom.normal, lift.
    destruct (vltb _ _); [reflexivity |].
    destruct (standard_normal s _) as [zs s']. simpl.
    rewrite percentile_out_of_range by exact Hal. reflexivity.
Qed.

Lemma rolling_confidence_out_of_range_witness :
  VaRBacktester.rolling_var_backtest
    (VaRBacktester.init sample5 (flat_estimate sample5 (34 # 1000)) (3 # 2))
    2 "historical" 0%nat = Raise ValueError.
Proof.
  apply (rolling_confidence_out_of_range ToyMath ToyRng
           (VaRBacktester.init sample5 (flat_estimate sample5 (34 # 1000))
              (3 # 2)) 2%nat "historical"%string 0%nat).
  - right. reflexivity.
  - simpl. lia.
  - left. reflexivity.
Defined.

(** X19: a portfolio that __init__ accepted with a number of weights other
    than the number of assets fails later: portfolio_returns and
    portfolio_value raise ValueError. *)
Theorem wrong_weight_count_fails_later : forall df w p initial,
  Portfolio.init df (Some w) = Ok p ->
  length w <> length (Portfolio.columns df) ->
  Portfolio.portfolio_returns p = Raise ValueError
  /\ Portfolio.portfolio_value p initial = Raise ValueError.
Proof.
  intros df w p initial E Hlen.
  unfold Portfolio.init in E.
  destruct (Numpy.isclose (Numpy.Qsum w) 1); [| discriminate E].
  injection E as E. subst p.
  assert (Er : Portfolio.portfolio_returns
                 {| Portfolio.returns := df;
                    Portfolio.assets := Portfolio.columns df;
                    Portfolio.n_assets := length (Portfolio.columns df);
                    Portfolio.weights := w |} = Raise ValueError).
  { unfold Portfolio.portfolio_returns. simpl.
    apply Nat.eqb_neq in Hlen. rewrite Hlen. reflexivity. }
  split; [exact Er |].
  unfold Portfolio.portfolio_value. rewrite Er. reflexivity.
Qed.

Lemma wrong_weight_count_fails_later_witness :
  exists p,
    Portfolio.init two_assets (Some [1]) = Ok p
    /\ Portfolio.portfolio_returns p = Raise ValueError
    /\ Portfolio.portfolio_value p 1000 = Raise ValueError.
Proof.
  eexists. split; [reflexivity |].
  apply (wrong_weight_count_fails_later two_assets [1] _ 1000).
  - reflexivity.
  - discriminate.
Defined.

(** * The in-sample backtest *)

Section InSampleFacts.

Lemma perm_filter_length : forall {A} (f : A -> bool) l l',
  Permutation l l' -> length (filter f l) = length (filter f l').
Proof.
  intros A f l l' H. induction H as [| x l l' H IH | x y l | l l' l'' H1 IH1 H2 IH2].
  - reflexivity.
  - simpl. destruct (f x); simpl; rewrite IH; reflexivity.
  - simpl. destruct (f x), (f y); reflexivity.
  - rewrite IH1. exact IH2.
Qed.

Lemma filter_none : forall {A} (f : A -> bool) l,
  (forall x, In x l -> f x = false) -> filter f l = [].
Proof.
  intros A f l. induction l as [| x l IH]; intros H; simpl.
  - reflexivity.
  - rewrite (H x) by (left; reflexivity).
    apply IH. intros y Hy. apply H. right. exact Hy.
Qed.

(** If nothing from rank [m] on passes the test, at most [m] values do. *)
Lemma filter_length_prefix : forall (f : Q -> bool) s m,
  (forall i, (m <= i)%nat -> (i < length s)%nat -> f (nth i s 0) = false) ->
  (length (filter f s) <= m)%nat.
Proof.
  intros f s m H.
  rewrite <- (firstn_skipn m s), filter_app, length_app.
  rewrite (filter_none f (skipn m s)).
  - simpl. rewrite Nat.add_0_r.
    eapply Nat.le_trans; [apply filter_length_le |].
    rewrite length_firstn. apply Nat.le_min_l.
  - intros x Hx. apply (In_nth _ _ 0) in Hx. destruct Hx as (i & Hi & Ex).
    rewrite length_skipn in Hi. rewrite nth_skipn in Ex. subst x.
    apply H; lia.
Qed.

Lemma constant_series_index : forall {A} idx (v : A),
  index (constant_series idx v) = idx.
Proof.
  intros A idx v. unfold index, constant_series. rewrite map_map.
  simpl. apply map_id.
Qed.

(** Against a constant estimate [-p], the violations are the returns below
    [p]. *)
Lemma violation_count_constant : forall (rs : Series Q) p,
  violation_count rs (constant_series (index rs) (Num (- p)))
  = length (filter (fun x => negb (Qle_bool (- x) (- p))) (values rs)).
Proof.
  intros rs p. unfold violation_count.
  induction rs as [| [d r] rs IH]; [reflexivity |].
  simpl. simpl in IH.
  destruct (negb (Qle_bool (- r) (- p))); simpl; rewrite IH; reflexivity.
Qed.

End InSampleFacts.

(** X20: in the in-sample backtest (the historical VaR of a series used as
    the constant estimate for that same series) the Kupiec test always
    returns and the number of violations is strictly below the number of
    observations: the largest return is never a violation, so the branch
    "every observation violates" is never taken. *)
Theorem in_sample_violations_bounded : forall (L : MathLib) rs cl,
  rs <> [] -> 0 <= cl -> cl <= 1 ->
  let n := length rs in
  exists bt r,
    in_sample_backtester rs cl = Ok bt
    /\ VaRBacktester.kupiec_test bt = Ok r
    /\ VaRBacktester.n_observations r = n
    /\ (VaRBacktester.n_violations r < n)%nat.
Proof.
  intros L rs cl Hne H0 H1 n.
  destruct (historical_var_value rs cl Hne H0 H1) as (p & E & Hp & _).
  set (bt := VaRBacktester.init rs
               (constant_series (index rs) (Num (- p))) cl).
  destruct (kupiec_test_total bt) as (r & Er & Hn & Hx).
  { simpl. rewrite constant_series_index. apply same_index_refl. }
  exists bt, r.
  split. { unfold in_sample_backtester. rewrite E. reflexivity. }
  split; [exact Er |]. split; [exact Hn |].
  simpl in Hx. rewrite violation_count_constant in Hx.
  assert (Hv : values rs <> []).
  { destruct rs; [congruence | discriminate]. }
  assert (Ln : length (values rs) = n) by apply values_length.
  assert (Hnpos : (0 < n)%nat).
  { unfold n. destruct rs; [congruence | simpl; lia]. }
  destruct (rank_bounds (length (values rs) - 1) (1 - cl)) as [A B];
    try lra.
  remember (of_nat (length (values rs) - 1) * ((1 - cl) * 100 / 100))
    as h eqn:Eh.
  set (s := Numpy.sort (values rs)) in *.
  assert (Ls : length s = n) by (unfold s; rewrite sort_length; exact Ln).
  assert (B' : h <= of_nat (length s - 1)) by (rewrite Ls, <- Ln; exact B).
  assert (Hs : StronglySorted Qle s) by apply sort_sorted.
  assert (Hsn : s <> []) by (apply sort_nonempty; exact Hv).
  destruct (interpolate_rank s h Hsn A B') as (Hk & _).
  destruct (interpolate_between s h Hs Hsn A B') as [_ Hi].
  rewrite <- Hp in Hi.
  set (k := Z.to_nat (Qfloor h)) in *.
  assert (Hcount : (length (filter (fun x => negb (Qle_bool (- x) (- p)))
                              (values rs))
                    <= n - 1)%nat).
  { rewrite <- (perm_filter_length _ _ _ (sort_perm (values rs))).
    fold s. apply filter_length_prefix.
    intros i Hmi Hil.
    assert (Hge : nth (Nat.min (S k) (length s - 1)) s 0 <= nth i s 0)
      by (apply sorted_nth_le; auto; lia).
    apply negb_false_iff. apply Qle_bool_iff. lra. }
  rewrite Hx. lia.
Qed.

Lemma in_sample_violations_bounded_witness :
  exists bt r,
    in_sample_backtester sample5 (80 # 100) = Ok bt
    /\ VaRBacktester.kupiec_test bt = Ok r
    /\ VaRBacktester.n_observations r = 5%nat
    /\ (VaRBacktester.n_violations r < 5)%nat.
Proof.
  assert (Hne : sample5 <> []) by discriminate.
  assert (H0 : 0 <= 80 # 100) by (unfold Qle; simpl; lia).
  assert (H1 : 80 # 100 <= 1) by (unfold Qle; simpl; lia).
  destruct (in_sample_violations_bounded ToyMath sample5 (80 # 100)
              Hne H0 H1) as (bt & r & E & Er & Hn & Hlt).
  exists bt, r. repeat split; assumption.
Defined.
